(** * Thumbnailer (src/App.tsx): a shallow embedding and its properties

    The component [App] keeps its scene in React state variables, paints
    it on a 2D canvas context in an effect, and reacts to pointer and
    button events.  This file embeds

    - the data of lines 10-18 (canvas size, border and date options,
      layers, templates, drag information) and the first render's state
      (lines 39-57),
    - React's [useState] discipline: a handler reads the constants
      captured when the component was rendered; a setter call does not
      change them but is queued, and the queue is processed, in call
      order, once the handler has returned,
    - [handleLayerPropChange] and [deleteSelectedLayer] (lines 186-191
      and 239-243), the pointer handlers (lines 292-329) and the two
      background controls (lines 388-389),
    - the rendering effect and its drawing helpers (lines 97-183) as a
      program over a canvas context that logs every paint call,
    - the template store (lines 63-71 and 258-281) over [localStorage].

    The canvas element and its 2D context are taken to exist, so the
    guards of lines 99-101, 293-296 and 322-323 pass.  Numbers are exact
    rationals (no rounding, no infinities); [None] stands for NaN. *)

From Stdlib Require Import QArith Ascii String Lqa.
From stdpp Require Import gmap strings list fin_maps pretty sorting.

Open Scope string_scope.
Open Scope list_scope.

(** ** JavaScript numbers *)

Module JSNum.

(** A number is a rational or NaN ([None]).  Arithmetic propagates NaN
    and every comparison with NaN is false, as in JavaScript. *)
Definition number : Type := option Q.

Definition of_Z (z : Z) : number := Some (inject_Z z).

Definition lift2 (f : Q -> Q -> Q) (a b : number) : number :=
  match a, b with
  | Some x, Some y => Some (f x y)
  | _, _ => None
  end.

Definition add : number -> number -> number := lift2 Qplus.
Definition sub : number -> number -> number := lift2 Qminus.
Definition div : number -> number -> number := lift2 Qdiv.

Definition cmp (f : Q -> Q -> bool) (a b : number) : bool :=
  match a, b with
  | Some x, Some y => f x y
  | _, _ => false
  end.

(** [a <= b], [a >= b] and [a > b]. *)
Definition le : number -> number -> bool := cmp Qle_bool.
Definition ge : number -> number -> bool := cmp (fun x y => Qle_bool y x).
Definition gt : number -> number -> bool :=
  cmp (fun x y => negb (Qle_bool x y)).

End JSNum.

Abbreviation number := JSNum.number.

Declare Scope js_scope.
Delimit Scope js_scope with js.
Infix "+" := JSNum.add : js_scope.
Infix "-" := JSNum.sub : js_scope.
Infix "/" := JSNum.div : js_scope.
Infix "<=?" := JSNum.le : js_scope.
Infix ">=?" := JSNum.ge : js_scope.
Infix ">?" := JSNum.gt : js_scope.

(** ** JavaScript arrays: the methods the component calls *)

Module JSArray.
Section Methods.
Context {A : Type}.

(** [arr.findIndex(p)]: the index of the first element satisfying
    [p], or -1. *)
Fixpoint findIndex_from (p : A -> bool) (i : Z) (l : list A) : Z :=
  match l with
  | [] => -1
  | a :: l' => if p a then i else findIndex_from p (i + 1) l'
  end.

Definition findIndex (p : A -> bool) (l : list A) : Z :=
  findIndex_from p 0 l.

(** [arr.filter((a, index) => p(a, index))]. *)
Fixpoint filter_from (p : A -> nat -> bool) (i : nat) (l : list A)
  : list A :=
  match l with
  | [] => []
  | a :: l' =>
      if p a i then a :: filter_from p (S i) l' else filter_from p (S i) l'
  end.

Definition filter (p : A -> nat -> bool) (l : list A) : list A :=
  filter_from p 0 l.

(** [arr.map((a, index) => f(a, index))]. *)
Fixpoint map_from (f : A -> nat -> A) (i : nat) (l : list A) : list A :=
  match l with
  | [] => []
  | a :: l' => f a i :: map_from f (S i) l'
  end.

Definition map (f : A -> nat -> A) (l : list A) : list A :=
  map_from f 0 l.

(** [[...arr].reverse()]. *)
Definition reverse (l : list A) : list A := rev_append l [].

End Methods.
End JSArray.

(** ** The types of lines 10-18 *)

Module CanvasSize.
Record t := mk { width : Q; height : Q }.
End CanvasSize.

Module BorderOptions.
Record t := mk { color : string; width : Q; enabled : bool }.
End BorderOptions.

Module DateOptions.
Record t := mk { enabled : bool }.
End DateOptions.

(** A property value of a layer object: a number (possibly NaN), a
    string, a boolean or [null]. *)
Inductive JSValue :=
| VNum (n : number)
| VStr (s : string)
| VBool (b : bool)
| VNull.

(** A layer is a plain object; [{ ...layer, [prop]: value }] is
    [<[prop := value]> layer] and [layer.p] is [layer !! "p"]
    ([None] is [undefined]). *)
Abbreviation Layer := (gmap string JSValue).

Module Template.
Record t := mk {
  name : string;
  layers : list Layer;
  canvasSize : CanvasSize.t;
  backgroundColor : string;
  borderOptions : BorderOptions.t;
  dateOptions : DateOptions.t
}.
End Template.

Record DragInfo := mkDragInfo {
  isDragging : bool;
  targetIndex : option nat;
  startX : number;
  startY : number
}.

(** A decoded image: what [new Image()] holds once [onload] has fired. *)
Record HTMLImageElement := mkImage { img_src : string }.

Record Pos := mkPos { pos_x : number; pos_y : number }.

(** ** Component state (lines 39-57) *)

Record AppState := mkState {
  canvasSize : CanvasSize.t;
  backgroundColor : string;
  backgroundImage : option string;
  borderOptions : BorderOptions.t;
  dateOptions : DateOptions.t;
  layers : list Layer;
  selectedLayerIndex : option nat;
  imageObjects : gmap string HTMLImageElement;
  templates : list Template.t
}.

(** A queued call of a [useState] setter with a value. *)
Inductive SetState :=
| SetCanvasSize (v : CanvasSize.t)
| SetBackgroundColor (v : string)
| SetBackgroundImage (v : option string)
| SetBorderOptions (v : BorderOptions.t)
| SetDateOptions (v : DateOptions.t)
| SetLayers (v : list Layer)
| SetSelectedLayerIndex (v : option nat)
| SetTemplates (v : list Template.t).

(** Processing one queued call replaces the variable it belongs to. *)
Definition reduce (s : AppState) (a : SetState) : AppState :=
  match a with
  | SetCanvasSize v =>
      mkState v (backgroundColor s) (backgroundImage s) (borderOptions s)
        (dateOptions s) (layers s) (selectedLayerIndex s) (imageObjects s)
        (templates s)
  | SetBackgroundColor v =>
      mkState (canvasSize s) v (backgroundImage s) (borderOptions s)
        (dateOptions s) (layers s) (selectedLayerIndex s) (imageObjects s)
        (templates s)
  | SetBackgroundImage v =>
      mkState (canvasSize s) (backgroundColor s) v (borderOptions s)
        (dateOptions s) (layers s) (selectedLayerIndex s) (imageObjects s)
        (templates s)
  | SetBorderOptions v =>
      mkState (canvasSize s) (backgroundColor s) (backgroundImage s) v
        (dateOptions s) (layers s) (selectedLayerIndex s) (imageObjects s)
        (templates s)
  | SetDateOptions v =>
      mkState (canvasSize s) (backgroundColor s) (backgroundImage s)
        (borderOptions s) v (layers s) (selectedLayerIndex s) (imageObjects s)
        (templates s)
  | SetLayers v =>
      mkState (canvasSize s) (backgroundColor s) (backgroundImage s)
        (borderOptions s) (dateOptions s) v (selectedLayerIndex s)
        (imageObjects s) (templates s)
  | SetSelectedLayerIndex v =>
      mkState (canvasSize s) (backgroundColor s) (backgroundImage s)
        (borderOptions s) (dateOptions s) (layers s) v (imageObjects s)
        (templates s)
  | SetTemplates v =>
      mkState (canvasSize s) (backgroundColor s) (backgroundImage s)
        (borderOptions s) (dateOptions s) (layers s) (selectedLayerIndex s)
        (imageObjects s) v
  end.

(** What lives outside React state: the [dragInfo] ref and
    [localStorage]. *)
Record World := mkWorld {
  dragInfo : DragInfo;
  localStorage : gmap string string
}.

(** A running handler: the setter calls queued so far, and the world. *)
Record Run := mkRun {
  pending : list SetState;
  world : World
}.

Definition Handler : Type := Run -> Run.

(** [h1 ;> h2]: statement [h1], then statement [h2]. *)
Definition andThen {St : Type} (h1 h2 : St -> St) : St -> St :=
  fun w => h2 (h1 w).
Notation "h1 ;> h2" := (andThen h1 h2) (at level 90, right associativity).

Definition skip {St : Type} : St -> St := fun w => w.

Definition enqueue (a : SetState) : Handler := fun r =>
  mkRun (pending r ++ [a]) (world r).

(** [dragInfo.current = d] *)
Definition setDragInfo (d : DragInfo) : Handler := fun r =>
  mkRun (pending r) (mkWorld d (localStorage (world r))).

Definition localStorage_setItem (key value : string) : Handler := fun r =>
  mkRun (pending r)
    (mkWorld (dragInfo (world r)) (<[key := value]> (localStorage (world r)))).

Definition localStorage_getItem (key : string) (r : Run) : option string :=
  localStorage (world r) !! key.

(** An event: the handler created by the last render runs on the values
    [s] of that render, then React processes the queue in call order. *)
Definition dispatch (h : AppState -> Handler) (sw : AppState * World)
  : AppState * World :=
  let r := h (fst sw) (mkRun [] (snd sw)) in
  (fold_left reduce (pending r) (fst sw), world r).

(** ** Reading layer properties *)

(** A property read where the interfaces declare a [number]: a number
    is itself, [null] is 0 and [undefined] is NaN; a string or a boolean
    is outside the declared type and is read as NaN. *)
Definition num (v : option JSValue) : number :=
  match v with
  | Some (VNum n) => n
  | Some VNull => JSNum.of_Z 0
  | _ => None
  end.

(** [if (v)] *)
Definition truthy (v : option JSValue) : bool :=
  match v with
  | Some (VBool b) => b
  | Some (VStr s) => negb (String.eqb s "")
  | Some (VNum (Some q)) => negb (Qeq_bool q 0)
  | Some (VNum None) => false
  | Some VNull => false
  | None => false
  end.

(** [v === null] *)
Definition is_null {A : Type} (v : option A) : bool :=
  match v with
  | None => true
  | Some _ => false
  end.

(** [layer.type === t] *)
Definition type_is (layer : Layer) (t : string) : bool :=
  match layer !! "type" with
  | Some (VStr s) => String.eqb s t
  | _ => false
  end.

(** ** The canvas context *)

(** The part of the effect (lines 105-143) a paint call belongs to. *)
Inductive Phase :=
| PClear
| PBackground
| PBorder
| PDate
| PLayer (i : nat)
| PSelection.

#[global] Instance Phase_eq_dec : EqDecision Phase.
Proof. solve_decision. Defined.

Inductive PaintCall :=
| ClearRect (x y w h : number)
| FillRect (x y w h : number)
| StrokeRect (x y w h : number)
| DrawImage (img : HTMLImageElement) (x y w h : number)
| FillText (text : string) (x y : number)
| StrokeText (text : string) (x y : number).

(** One entry of the paint log: the call, the drawing state it was made
    in, and the part of the effect that made it. *)
Record Painted := mkPainted {
  phase : Phase;
  call : PaintCall;
  style : gmap string JSValue;
  dash : list Q
}.

(** A 2D context: its drawing state (the assigned properties and the
    line dash), the stack of [save()], and the paint log.  [marker] is
    ghost state naming the part of the effect that is running. *)
Record Context2D := mkCtx {
  props : gmap string JSValue;
  lineDash : list Q;
  saved : list (gmap string JSValue * list Q);
  marker : Phase;
  log : list Painted
}.

Definition CtxOp : Type := Context2D -> Context2D.

(** [ctx.k = v] *)
Definition assign (k : string) (v : JSValue) : CtxOp := fun c =>
  mkCtx (<[k := v]> (props c)) (lineDash c) (saved c) (marker c) (log c).

Definition setLineDash (d : list Q) : CtxOp := fun c =>
  mkCtx (props c) d (saved c) (marker c) (log c).

Definition save : CtxOp := fun c =>
  mkCtx (props c) (lineDash c) ((props c, lineDash c) :: saved c)
    (marker c) (log c).

Definition restore : CtxOp := fun c =>
  match saved c with
  | [] => c
  | (p, d) :: rest => mkCtx p d rest (marker c) (log c)
  end.

Definition paint (k : PaintCall) : CtxOp := fun c =>
  mkCtx (props c) (lineDash c) (saved c) (marker c)
    (log c ++ [mkPainted (marker c) k (props c) (lineDash c)]).

(** Ghost step: the part of the effect that starts here (the comments
    of lines 105, 113, 120, 131 and 140; one part per layer). *)
Definition enter (p : Phase) : CtxOp := fun c =>
  mkCtx (props c) (lineDash c) (saved c) p (log c).

(** [arr.forEach((a, index) => body(a, index))] over a context. *)
Fixpoint forEach_from {A St : Type} (body : A -> nat -> St -> St) (i : nat)
  (l : list A) : St -> St :=
  match l with
  | [] => skip
  | a :: l' => body a i ;> forEach_from body (S i) l'
  end.

Definition forEach {A St : Type} (body : A -> nat -> St -> St)
  (l : list A) : St -> St :=
  forEach_from body 0 l.

Record Rect := mkRect {
  rect_x : number;
  rect_y : number;
  rect_width : number;
  rect_height : number
}.

(** What [new Date()] answers. *)
Record JSDate := mkDate {
  getFullYear : number;
  getMonth : number;
  getDate : number
}.

(** [s.padStart(n, '0')] *)
Definition padStart0 (n : nat) (s : string) : string :=
  String.concat "" (replicate (n - String.length s) "0") +:+ s.

Definition storageKey : string := "thumbnailer_templates".

(** ** What JSON keeps *)

(** [JSON.stringify] writes NaN as [null]; every other value of this
    model is written, and read back by [JSON.parse], as itself. *)
Definition JSON_value (v : JSValue) : JSValue :=
  match v with
  | VNum None => VNull
  | _ => v
  end.

Definition JSON_template (t : Template.t) : Template.t :=
  Template.mk (Template.name t)
    (fmap (M := list) (fmap (M := gmap string) JSON_value) (Template.layers t))
    (Template.canvasSize t) (Template.backgroundColor t)
    (Template.borderOptions t) (Template.dateOptions t).

(** A layer list that JSON represents exactly: no property is NaN. *)
Definition finite_layers (ls : list Layer) : Prop :=
  Forall (map_Forall (fun _ v => v <> VNum None)) ls.

(** ** The first render (lines 39-57) *)

Definition initialLayer : Layer :=
  list_to_map
    [("type", VStr "text"); ("content", VStr "문구를 입력하세요");
     ("x", VNum (Some (1280 / 2)%Q)); ("y", VNum (Some (720 / 2)%Q));
     ("fontSize", VNum (JSNum.of_Z 80)); ("fontFamily", VStr "Gmarket Sans");
     ("fontWeight", VStr "bold"); ("color", VStr "#FFFFFF");
     ("strokeColor", VStr "#000000"); ("strokeWidth", VNum (JSNum.of_Z 6));
     ("shadowColor", VStr "rgba(0,0,0,0.5)");
     ("shadowBlur", VNum (JSNum.of_Z 10));
     ("shadowOffsetX", VNum (JSNum.of_Z 5));
     ("shadowOffsetY", VNum (JSNum.of_Z 5)); ("shadowEnabled", VBool true)].

Definition initialState : AppState :=
  mkState (CanvasSize.mk 1280 720) "#1a1a1a" None
    (BorderOptions.mk "#000000" 20 true) (DateOptions.mk true)
    [initialLayer] (Some 0%nat) ∅ [].

Definition initialDragInfo : DragInfo :=
  mkDragInfo false None (JSNum.of_Z 0) (JSNum.of_Z 0).

(** ** Sample scenes *)

Module Sample.

Definition world (items : gmap string string) : World :=
  mkWorld initialDragInfo items.

(** The first layer moved to the given position. *)
Definition layerAt (x y : Z) : Layer :=
  <["x" := VNum (JSNum.of_Z x)]> (<["y" := VNum (JSNum.of_Z y)]> initialLayer).

Definition imageLayer (src : string) (x y w h : Z) : Layer :=
  list_to_map
    [("type", VStr "image"); ("src", VStr src);
     ("x", VNum (JSNum.of_Z x)); ("y", VNum (JSNum.of_Z y));
     ("width", VNum (JSNum.of_Z w)); ("height", VNum (JSNum.of_Z h))].

(** The first render with the given layers, selection and background
    image. *)
Definition withLayers (ls : list Layer) (selected : option nat)
  (background : option string) : AppState :=
  mkState (canvasSize initialState) (backgroundColor initialState)
    background (borderOptions initialState) (dateOptions initialState)
    ls selected (imageObjects initialState) (templates initialState).

Definition pos (x y : Z) : Pos := mkPos (JSNum.of_Z x) (JSNum.of_Z y).

(** A text layer under an image layer whose image is not decoded. *)
Definition twoLayers : AppState :=
  withLayers [initialLayer; imageLayer "data:image/png;base64,AAAA" 200 200 100 80]
    None None.

(** The first render once the picture has been decoded. *)
Definition decoded : AppState :=
  mkState (canvasSize initialState) (backgroundColor initialState)
    (backgroundImage initialState) (borderOptions initialState)
    (dateOptions initialState) (layers initialState)
    (selectedLayerIndex initialState)
    {["data:image/png;base64,iVBORw0KGgo=" := mkImage "data:image/png;base64,iVBORw0KGgo="]}
    (templates initialState).

Definition picture : string := "data:image/png;base64,iVBORw0KGgo=".

Definition today : JSDate :=
  mkDate (JSNum.of_Z 2024) (JSNum.of_Z 4) (JSNum.of_Z 17).

Definition blankContext : Context2D := mkCtx ∅ [] [] PClear [].

(** The drag record after a pointer-down on the first layer, 10 right of
    and 10 below its position. *)
Definition dragging : World :=
  mkWorld (mkDragInfo true (Some 0%nat) (JSNum.of_Z 10) (JSNum.of_Z 10)) ∅.

(** The picture as a layer and as the background, not decoded yet. *)
Definition album : AppState :=
  withLayers [imageLayer picture 200 200 100 80] None (Some picture).

(** The same once the picture is decoded. *)
Definition gallery : AppState :=
  mkState (canvasSize initialState) (backgroundColor initialState)
    (Some picture) (borderOptions initialState) (dateOptions initialState)
    [imageLayer picture 200 200 100 80] None
    {[picture := mkImage picture]} (templates initialState).

End Sample.

(** ** A reference platform

    Concrete functions for the platform the component runs on: a pair
    with the round-trip behaviour of [JSON.stringify] and [JSON.parse] on
    template lists, a text measure and a number printer.  They
    instantiate the platform where a closed statement needs one. *)

Module Reference.

#[global] Instance Q_eq_dec : EqDecision Q.
Proof. solve_decision. Defined.

#[global] Instance Q_countable : Countable Q :=
  inj_countable' (fun q => (Qnum q, Qden q)) (fun p => Qmake p.1 p.2)
    (fun q => match q with Qmake _ _ => eq_refl end).

#[global] Instance JSValue_eq_dec : EqDecision JSValue.
Proof. solve_decision. Defined.

#[global] Instance JSValue_countable : Countable JSValue :=
  inj_countable'
    (fun v => match v with
              | VNum n => inl (inl n)
              | VStr s => inl (inr s)
              | VBool b => inr (inl b)
              | VNull => inr (inr tt)
              end)
    (fun c => match c with
              | inl (inl n) => VNum n
              | inl (inr s) => VStr s
              | inr (inl b) => VBool b
              | inr (inr _) => VNull
              end)
    (fun v => match v with
              | VNum _ | VStr _ | VBool _ | VNull => eq_refl
              end).

#[global] Instance CanvasSize_eq_dec : EqDecision CanvasSize.t.
Proof. solve_decision. Defined.

#[global] Instance CanvasSize_countable : Countable CanvasSize.t :=
  inj_countable'
    (fun c => (CanvasSize.width c, CanvasSize.height c))
    (fun p => CanvasSize.mk p.1 p.2)
    (fun c => match c with CanvasSize.mk _ _ => eq_refl end).

#[global] Instance BorderOptions_eq_dec : EqDecision BorderOptions.t.
Proof. solve_decision. Defined.

#[global] Instance BorderOptions_countable : Countable BorderOptions.t :=
  inj_countable'
    (fun b => (BorderOptions.color b, BorderOptions.width b,
               BorderOptions.enabled b))
    (fun p => BorderOptions.mk p.1.1 p.1.2 p.2)
    (fun b => match b with BorderOptions.mk _ _ _ => eq_refl end).

#[global] Instance DateOptions_eq_dec : EqDecision DateOptions.t.
Proof. solve_decision. Defined.

#[global] Instance DateOptions_countable : Countable DateOptions.t :=
  inj_countable' DateOptions.enabled DateOptions.mk
    (fun d => match d with DateOptions.mk _ => eq_refl end).

#[global] Instance Template_eq_dec : EqDecision Template.t.
Proof. solve_decision. Defined.

#[global] Instance Template_countable : Countable Template.t :=
  inj_countable'
    (fun t => (Template.name t, Template.layers t, Template.canvasSize t,
               Template.backgroundColor t, Template.borderOptions t,
               Template.dateOptions t))
    (fun p => Template.mk p.1.1.1.1.1 p.1.1.1.1.2 p.1.1.1.2 p.1.1.2 p.1.2
                p.2)
    (fun t => match t with Template.mk _ _ _ _ _ _ => eq_refl end).

(** A positive number as text: its bits, least significant first, then
    an end mark. *)
Fixpoint write_pos (p : positive) : string :=
  match p with
  | xH => "."
  | xO p' => String "0"%char (write_pos p')
  | xI p' => String "1"%char (write_pos p')
  end.

Fixpoint read_pos (s : string) : option positive :=
  match s with
  | "." => Some xH
  | String "0"%char s' => xO <$> read_pos s'
  | String "1"%char s' => xI <$> read_pos s'
  | _ => None
  end.

Definition stringify (ts : list Template.t) : string :=
  write_pos (encode (JSON_template <$> ts)).

Definition parse (s : string) : option (list Template.t) :=
  if String.eqb s "[]" then Some []
  else read_pos s ≫= decode.

Definition measureText (font text : string) : number :=
  Some (inject_Z (40 * Z.of_nat (String.length text))).

Definition numberToString (n : number) : string :=
  match n with
  | Some q => pretty (Qnum q) +:+ "/" +:+ pretty (Zpos (Qden q))
  | None => "NaN"
  end.

End Reference.

(** ** The rest of the component: data and callbacks without platform *)

(** [a * b] *)
Definition times : number -> number -> number := JSNum.lift2 Qmult.

(** [a / b] where [b] may be zero.  A quotient by zero is an infinity or
    NaN; exact rationals have neither, and both are [None] here. *)
Definition quotient (a b : number) : number :=
  match a, b with
  | Some x, Some y => if Qeq_bool y 0 then None else Some (x / y)%Q
  | _, _ => None
  end.

(** What [canvas.getBoundingClientRect()] answers. *)
Module DOMRect.
Record t := mk { left : Q; top : Q; width : Q; height : Q }.
End DOMRect.

Module MouseEvent.
Record t := mk { clientX : Q; clientY : Q }.
End MouseEvent.

(** Lines 284-290; the canvas has the size of the state (line 421). *)
Definition getMousePos (canvas : CanvasSize.t) (rect : DOMRect.t)
  (evt : MouseEvent.t) : Pos :=
  mkPos
    (times (Some (MouseEvent.clientX evt - DOMRect.left rect)%Q)
       (quotient (Some (CanvasSize.width canvas))
          (Some (DOMRect.width rect))))
    (times (Some (MouseEvent.clientY evt - DOMRect.top rect)%Q)
       (quotient (Some (CanvasSize.height canvas))
          (Some (DOMRect.height rect)))).

(** A sample layout: the canvas shown at half its size, and a pointer
    over it. *)
Module Screen.

Definition halfSize : DOMRect.t := DOMRect.mk 10 20 640 360.

Definition pointer : MouseEvent.t := MouseEvent.mk 330 200.

End Screen.

(** A queued setter call in either form: with a value, or with an
    updater function of the value the variable has when the call is
    processed.  The updater of [addLayer] calls another setter, with a
    value; that call is processed after the updater's own result. *)
Inductive SetStateAction :=
| Value (a : SetState)
| LayersUpdater (f : list Layer -> list Layer * list SetState)
| ImageObjectsUpdater
    (f : gmap string HTMLImageElement -> gmap string HTMLImageElement)
| BorderOptionsUpdater (f : BorderOptions.t -> BorderOptions.t)
| DateOptionsUpdater (f : DateOptions.t -> DateOptions.t).

Definition reduceAction (s : AppState) (a : SetStateAction) : AppState :=
  match a with
  | Value v => reduce s v
  | LayersUpdater f =>
      let '(newLayers, inner) := f (layers s) in
      fold_left reduce inner (reduce s (SetLayers newLayers))
  | ImageObjectsUpdater f =>
      mkState (canvasSize s) (backgroundColor s) (backgroundImage s)
        (borderOptions s) (dateOptions s) (layers s) (selectedLayerIndex s)
        (f (imageObjects s)) (templates s)
  | BorderOptionsUpdater f => reduce s (SetBorderOptions (f (borderOptions s)))
  | DateOptionsUpdater f => reduce s (SetDateOptions (f (dateOptions s)))
  end.

(** A callback that only calls setters: React processes its calls, in
    order, on the state [s] the component has when it runs. *)
Definition commit (calls : list SetStateAction) (s : AppState) : AppState :=
  fold_left reduceAction calls s.

(** The updater of lines 201-205 and 225-229. *)
Definition appendAndSelect (newLayer : Layer) (prev : list Layer)
  : list Layer * list SetState :=
  let newLayers := prev ++ [newLayer] in
  (newLayers, [SetSelectedLayerIndex (Some (length newLayers - 1)%nat)]).

(** Lines 195-200. *)
Definition newTextLayer (size : CanvasSize.t) : Layer :=
  list_to_map
    [("type", VStr "text"); ("content", VStr "새 텍스트");
     ("x", VNum (Some (CanvasSize.width size / 2)%Q));
     ("y", VNum (Some (CanvasSize.height size / 2)%Q));
     ("fontSize", VNum (JSNum.of_Z 48)); ("fontFamily", VStr "Arial");
     ("fontWeight", VStr "bold"); ("color", VStr "#FFFFFF");
     ("strokeColor", VStr "#000000"); ("strokeWidth", VNum (JSNum.of_Z 2));
     ("shadowColor", VStr "rgba(0,0,0,0.5)");
     ("shadowBlur", VNum (JSNum.of_Z 5));
     ("shadowOffsetX", VNum (JSNum.of_Z 2));
     ("shadowOffsetY", VNum (JSNum.of_Z 2)); ("shadowEnabled", VBool false)].

(** [addLayer('text')] (lines 194-205), on the render [s]. *)
Definition addLayer_text (s : AppState) : list SetStateAction :=
  [LayersUpdater (appendAndSelect (newTextLayer (canvasSize s)))].

(** Lines 219-224: [img] has the given width and height. *)
Definition newImageLayer (size : CanvasSize.t) (imgSrc : string)
  (img_width img_height : Q) : Layer :=
  let aspectRatio := quotient (Some img_height) (Some img_width) in
  let newWidth :=
    if (Some img_width >? JSNum.of_Z 300)%js then 300%Q else img_width in
  list_to_map
    [("type", VStr "image"); ("src", VStr imgSrc);
     ("x", VNum (Some (CanvasSize.width size / 2)%Q));
     ("y", VNum (Some (CanvasSize.height size / 2)%Q));
     ("width", VNum (Some newWidth));
     ("height", VNum (times (Some newWidth) aspectRatio))].

(** The [img.onload] callback that [addLayer('image')] installs (lines
    218-230).  [s] is the render during which the button was clicked,
    [imgSrc] the data URI read from the chosen file. *)
Definition addLayer_image_onload (s : AppState) (imgSrc : string)
  (img_width img_height : Q) : list SetStateAction :=
  [LayersUpdater
     (appendAndSelect
        (newImageLayer (canvasSize s) imgSrc img_width img_height))].

(** The [img.onload] callback of the image-loading effect (lines 81-83
    and 89-91): [img.src] is the source that was requested. *)
Definition onImageDecoded (src : string) : list SetStateAction :=
  [ImageObjectsUpdater (fun prev => <[src := mkImage src]> prev)].

(** Line 246; the timer of lines 247-254 reads the canvas and changes no
    state. *)
Definition handleDownload (s : AppState) : Handler :=
  enqueue (SetSelectedLayerIndex None).

(** The canvas controls of lines 383-398. *)
Definition canvasPresets : list CanvasSize.t :=
  [CanvasSize.mk 1280 720; CanvasSize.mk 1080 1920; CanvasSize.mk 1080 1080].

Definition onCanvasPreset (size : CanvasSize.t) : list SetStateAction :=
  [Value (SetCanvasSize size)].

Definition onBorderEnabledChange (checked : bool) : list SetStateAction :=
  [BorderOptionsUpdater
     (fun p => BorderOptions.mk (BorderOptions.color p) (BorderOptions.width p)
                 checked)].

Definition onBorderWidthChange (value : Q) : list SetStateAction :=
  [BorderOptionsUpdater
     (fun p => BorderOptions.mk (BorderOptions.color p) value
                 (BorderOptions.enabled p))].

Definition onBorderColorChange (value : string) : list SetStateAction :=
  [BorderOptionsUpdater
     (fun p => BorderOptions.mk value (BorderOptions.width p)
                 (BorderOptions.enabled p))].

Definition onDateEnabledChange (checked : bool) : list SetStateAction :=
  [DateOptionsUpdater (fun _ => DateOptions.mk checked)].

(** The selection points into the layer list. *)
Definition selection_in_range (s : AppState) : Prop :=
  forall i : nat, selectedLayerIndex s = Some i -> (i < length (layers s))%nat.

(** Every cached image is stored under its own source. *)
Definition cache_keyed (s : AppState) : Prop :=
  forall (k : string) (img : HTMLImageElement),
    imageObjects s !! k = Some img -> img_src img = k.

(** ** The component *)

Section Component.

(** The platform: [ctx.measureText(text).width] under a given
    [ctx.font], the conversion of a number to a string, and JSON.
    [JSON_parse] answers [None] where [JSON.parse] throws; the cast
    [as Template[]] of line 65 is unchecked, and a text that parses to a
    value of another shape is outside this model. *)
Variable measureText : string -> string -> number.
Variable numberToString : number -> string.
Variable JSON_stringify : list Template.t -> string.
Variable JSON_parse : string -> option (list Template.t).

(** What the platform guarantees about JSON: a written list reads back
    as written, up to NaN; "[]" is the empty list; the empty text does
    not parse. *)
Hypothesis JSON_roundtrip :
  forall ts : list Template.t,
    JSON_parse (JSON_stringify ts) = Some (JSON_template <$> ts).
Hypothesis JSON_parse_brackets : JSON_parse "[]" = Some [].
Hypothesis JSON_parse_empty : JSON_parse "" = None.

(** [`${v}`] *)
Definition toStr (v : option JSValue) : string :=
  match v with
  | None => "undefined"
  | Some (VStr s) => s
  | Some (VNum n) => numberToString n
  | Some (VBool true) => "true"
  | Some (VBool false) => "false"
  | Some VNull => "null"
  end.

Definition fontOf (layer : Layer) : string :=
  toStr (layer !! "fontWeight") +:+ " " +:+ toStr (layer !! "fontSize")
    +:+ "px " +:+ toStr (layer !! "fontFamily").

(** *** Drawing helpers (lines 148-183) *)

(** Assigning [undefined] to a context property leaves it as it was. *)
Definition assign_prop (k : string) (v : option JSValue) : CtxOp :=
  match v with
  | Some v => assign k v
  | None => skip
  end.

Definition drawText (layer : Layer) : CtxOp :=
  save ;>
  assign "font" (VStr (fontOf layer)) ;>
  assign_prop "fillStyle" (layer !! "color") ;>
  assign "textAlign" (VStr "center") ;>
  assign "textBaseline" (VStr "middle") ;>
  (if truthy (layer !! "shadowEnabled") then
     assign_prop "shadowColor" (layer !! "shadowColor") ;>
     assign_prop "shadowBlur" (layer !! "shadowBlur") ;>
     assign_prop "shadowOffsetX" (layer !! "shadowOffsetX") ;>
     assign_prop "shadowOffsetY" (layer !! "shadowOffsetY")
   else skip) ;>
  (if (num (layer !! "strokeWidth") >? JSNum.of_Z 0)%js then
     assign_prop "strokeStyle" (layer !! "strokeColor") ;>
     assign_prop "lineWidth" (layer !! "strokeWidth") ;>
     paint (StrokeText (toStr (layer !! "content"))
              (num (layer !! "x")) (num (layer !! "y")))
   else skip) ;>
  paint (FillText (toStr (layer !! "content"))
           (num (layer !! "x")) (num (layer !! "y"))) ;>
  restore.

Definition drawImage (layer : Layer) (img : HTMLImageElement) : CtxOp :=
  paint (DrawImage img
           (num (layer !! "x") - num (layer !! "width") / JSNum.of_Z 2)%js
           (num (layer !! "y") - num (layer !! "height") / JSNum.of_Z 2)%js
           (num (layer !! "width")) (num (layer !! "height"))).

Definition drawSelection (layer : Layer) : CtxOp :=
  assign "strokeStyle" (VStr "rgba(0, 123, 255, 0.9)") ;>
  assign "lineWidth" (VNum (JSNum.of_Z 2)) ;>
  setLineDash [6; 3]%Q ;>
  (if type_is layer "text" then
     assign "font" (VStr (fontOf layer)) ;>
     (let metrics_width :=
        measureText (fontOf layer) (toStr (layer !! "content")) in
      paint (StrokeRect
               (num (layer !! "x") - metrics_width / JSNum.of_Z 2
                - JSNum.of_Z 10)%js
               (num (layer !! "y") - num (layer !! "fontSize") / JSNum.of_Z 2
                - JSNum.of_Z 10)%js
               (metrics_width + JSNum.of_Z 20)%js
               (num (layer !! "fontSize") + JSNum.of_Z 20)%js))
   else
     paint (StrokeRect
              (num (layer !! "x") - num (layer !! "width") / JSNum.of_Z 2
               - JSNum.of_Z 5)%js
              (num (layer !! "y") - num (layer !! "height") / JSNum.of_Z 2
               - JSNum.of_Z 5)%js
              (num (layer !! "width") + JSNum.of_Z 10)%js
              (num (layer !! "height") + JSNum.of_Z 10)%js)) ;>
  setLineDash [].

(** *** The rendering effect (lines 97-145) *)

(** [selectedLayerIndex !== null ? layers[selectedLayerIndex] : null] *)
Definition selectedLayer (s : AppState) : option Layer :=
  match selectedLayerIndex s with
  | Some i => layers s !! i
  | None => None
  end.

(** [backgroundImage && imageObjects[backgroundImage]] *)
Definition resolvedBackground (s : AppState) : option HTMLImageElement :=
  match backgroundImage s with
  | Some src => if String.eqb src "" then None else imageObjects s !! src
  | None => None
  end.

Definition dateString (today : JSDate) : string :=
  numberToString (getFullYear today) +:+ "."
    +:+ padStart0 2 (numberToString (getMonth today + JSNum.of_Z 1)%js)
    +:+ "." +:+ padStart0 2 (numberToString (getDate today)).

Definition paintLayer (s : AppState) (layer : Layer) : CtxOp :=
  if type_is layer "text" then drawText layer
  else if type_is layer "image" then
    match imageObjects s !! toStr (layer !! "src") with
    | Some img => drawImage layer img
    | None => skip
    end
  else skip.

Definition render (s : AppState) (today : JSDate) : CtxOp :=
  let canvas_width := Some (CanvasSize.width (canvasSize s)) in
  let canvas_height := Some (CanvasSize.height (canvasSize s)) in
  let zero := JSNum.of_Z 0 in
  enter PClear ;>
  paint (ClearRect zero zero canvas_width canvas_height) ;>
  enter PBackground ;>
  (match resolvedBackground s with
   | Some img => paint (DrawImage img zero zero canvas_width canvas_height)
   | None =>
       assign "fillStyle" (VStr (backgroundColor s)) ;>
       paint (FillRect zero zero canvas_width canvas_height)
   end) ;>
  enter PBorder ;>
  (if BorderOptions.enabled (borderOptions s)
      && (Some (BorderOptions.width (borderOptions s)) >? zero)%js
   then
     assign "strokeStyle" (VStr (BorderOptions.color (borderOptions s))) ;>
     assign "lineWidth"
       (VNum (Some (BorderOptions.width (borderOptions s)))) ;>
     paint (StrokeRect zero zero canvas_width canvas_height)
   else skip) ;>
  enter PDate ;>
  (if DateOptions.enabled (dateOptions s) then
     assign "font" (VStr "bold 32px Arial") ;>
     assign "fillStyle" (VStr "#FFFFFF") ;>
     assign "strokeStyle" (VStr "#000000") ;>
     assign "lineWidth" (VNum (JSNum.of_Z 6)) ;>
     assign "textAlign" (VStr "right") ;>
     assign "textBaseline" (VStr "bottom") ;>
     paint (StrokeText (dateString today)
              (canvas_width - JSNum.of_Z 20)%js
              (canvas_height - JSNum.of_Z 20)%js) ;>
     paint (FillText (dateString today)
              (canvas_width - JSNum.of_Z 20)%js
              (canvas_height - JSNum.of_Z 20)%js)
   else skip) ;>
  forEach (fun layer i => enter (PLayer i) ;> paintLayer s layer)
    (layers s) ;>
  enter PSelection ;>
  (match selectedLayer s with
   | Some layer => drawSelection layer
   | None => skip
   end).

(** *** Layer handlers (lines 186-243) *)

Definition handleLayerPropChange (prop : string) (value : JSValue)
  (s : AppState) : Handler :=
  match selectedLayerIndex s with
  | None => skip
  | Some selected =>
      enqueue
        (SetLayers
           (JSArray.map
              (fun layer index =>
                 if Nat.eqb index selected then <[prop := value]> layer
                 else layer)
              (layers s)))
  end.

Definition deleteSelectedLayer (s : AppState) : Handler :=
  match selectedLayerIndex s with
  | None => skip
  | Some selected =>
      enqueue
        (SetLayers
           (JSArray.filter (fun _ index => negb (Nat.eqb index selected))
              (layers s))) ;>
      enqueue (SetSelectedLayerIndex None)
  end.

(** *** Template handlers (lines 63-71 and 258-281) *)

(** The effect run once after the first render. *)
Definition loadTemplatesEffect (s : AppState) : Handler := fun r =>
  let text :=
    match localStorage_getItem storageKey r with
    | Some item => if String.eqb item "" then "[]" else item
    | None => "[]"
    end in
  match JSON_parse text with
  | Some savedTemplates => enqueue (SetTemplates savedTemplates) r
  | None => enqueue (SetTemplates []) r
  end.

(** [answer] is what [prompt] returned: [None] when cancelled. *)
Definition saveTemplate (answer : option string) (s : AppState)
  : Handler :=
  match answer with
  | None => skip
  | Some name =>
      if String.eqb name "" then skip
      else
        let templateData :=
          Template.mk name (layers s) (canvasSize s) (backgroundColor s)
            (borderOptions s) (dateOptions s) in
        let newTemplates := templates s ++ [templateData] in
        enqueue (SetTemplates newTemplates) ;>
        localStorage_setItem storageKey (JSON_stringify newTemplates)
  end.

Definition loadTemplate (template : Template.t) (s : AppState)
  : Handler :=
  enqueue (SetCanvasSize (Template.canvasSize template)) ;>
  enqueue (SetBackgroundColor (Template.backgroundColor template)) ;>
  enqueue (SetBorderOptions (Template.borderOptions template)) ;>
  enqueue (SetDateOptions (Template.dateOptions template)) ;>
  enqueue (SetLayers (Template.layers template)) ;>
  enqueue (SetSelectedLayerIndex None).

Definition deleteTemplate (name : string) (s : AppState) : Handler :=
  let newTemplates :=
    List.filter (fun t => negb (String.eqb (Template.name t) name))
      (templates s) in
  enqueue (SetTemplates newTemplates) ;>
  localStorage_setItem storageKey (JSON_stringify newTemplates).

(** *** Pointer handlers (lines 292-329) *)

(** The rectangle tested at lines 300-307. *)
Definition hitRect (layer : Layer) : Rect :=
  if type_is layer "text" then
    let metrics_width :=
      measureText (fontOf layer) (toStr (layer !! "content")) in
    mkRect (num (layer !! "x") - metrics_width / JSNum.of_Z 2)%js
      (num (layer !! "y") - num (layer !! "fontSize") / JSNum.of_Z 2)%js
      metrics_width (num (layer !! "fontSize"))
  else
    mkRect (num (layer !! "x") - num (layer !! "width") / JSNum.of_Z 2)%js
      (num (layer !! "y") - num (layer !! "height") / JSNum.of_Z 2)%js
      (num (layer !! "width")) (num (layer !! "height")).

(** Line 308. *)
Definition inRect (pos : Pos) (rect : Rect) : bool :=
  ((pos_x pos >=? rect_x rect) && (pos_x pos <=? rect_x rect + rect_width rect)
   && (pos_y pos >=? rect_y rect)
   && (pos_y pos <=? rect_y rect + rect_height rect))%js.

Definition hits (pos : Pos) (layer : Layer) : bool :=
  inRect pos (hitRect layer).

(** [layers[i].p] as a number. *)
Definition layerNum (s : AppState) (i : nat) (p : string) : number :=
  num (layers s !! i ≫= fun layer => layer !! p).

(** [pos] is the value of [getMousePos(canvas, e)]. *)
Definition handleMouseDown (pos : Pos) (s : AppState) : Handler :=
  let clickedLayerIndex :=
    JSArray.findIndex (hits pos) (JSArray.reverse (layers s)) in
  if negb (clickedLayerIndex =? -1)%Z then
    let originalIndex :=
      Z.to_nat (Z.of_nat (length (layers s)) - 1 - clickedLayerIndex) in
    enqueue (SetSelectedLayerIndex (Some originalIndex)) ;>
    setDragInfo
      (mkDragInfo true (Some originalIndex)
         (pos_x pos - layerNum s originalIndex "x")%js
         (pos_y pos - layerNum s originalIndex "y")%js)
  else enqueue (SetSelectedLayerIndex None).

Definition handleMouseMove (pos : Pos) (s : AppState) : Handler := fun r =>
  let current := dragInfo (world r) in
  if negb (isDragging current) || is_null (targetIndex current) then r
  else
    (handleLayerPropChange "x" (VNum (pos_x pos - startX current)%js) s ;>
     handleLayerPropChange "y" (VNum (pos_y pos - startY current)%js) s)
      r.

Definition handleMouseUp (s : AppState) : Handler :=
  setDragInfo (mkDragInfo false None (JSNum.of_Z 0) (JSNum.of_Z 0)).

(** *** The background controls (lines 388-389) *)

Definition onBackgroundColorChange (value : string) (s : AppState)
  : Handler :=
  enqueue (SetBackgroundColor value) ;>
  enqueue (SetBackgroundImage None).

(** [file] is the data URI the reader produced for the chosen file,
    [None] when no file was chosen. *)
Definition onBackgroundImageChange (file : option string) (s : AppState)
  : Handler :=
  match file with
  | Some result => enqueue (SetBackgroundImage (Some result))
  | None => skip
  end.

(** *** The specification's words, for comparison *)

(** The box of a layer: measured text width by declared font size for
    a text layer, declared width by height otherwise. *)
Definition box_size (layer : Layer) : number * number :=
  if type_is layer "text" then
    (measureText (fontOf layer) (toStr (layer !! "content")),
     num (layer !! "fontSize"))
  else (num (layer !! "width"), num (layer !! "height")).

(** The point lies in the box of that size centred at the layer's
    (x, y). *)
Definition in_box (pos : Pos) (layer : Layer) : Prop :=
  exists px py x y w h : Q,
    pos_x pos = Some px /\ pos_y pos = Some py /\
    num (layer !! "x") = Some x /\ num (layer !! "y") = Some y /\
    box_size layer = (Some w, Some h) /\
    (x - w / 2 <= px /\ px <= x + w / 2)%Q /\
    (y - h / 2 <= py /\ py <= y + h / 2)%Q.

(** The paint calls the effect [render s today] adds to a context. *)
Definition painted (s : AppState) (today : JSDate) (c : Context2D)
  : list Painted :=
  drop (length (log c)) (log (render s today c)).

(** The live scene: what the specification's Scene aggregates. *)
Definition scene (s : AppState)
  : CanvasSize.t * string * option string * BorderOptions.t
    * DateOptions.t * list Layer :=
  (canvasSize s, backgroundColor s, backgroundImage s, borderOptions s,
   dateOptions s, layers s).

(** What an entry of the paint log shows: the call and the part of the
    effect that made it. *)
Definition shown (e : Painted) : Phase * PaintCall := (phase e, call e).

(** The renderer's contract, in the order the specification fixes:
    background, border, date stamp, layers in list order, selection
    outline. *)
Definition canvas_width (s : AppState) : number :=
  Some (CanvasSize.width (canvasSize s)).

Definition canvas_height (s : AppState) : number :=
  Some (CanvasSize.height (canvasSize s)).

Definition background_call (s : AppState) : PaintCall :=
  match resolvedBackground s with
  | Some img =>
      DrawImage img (JSNum.of_Z 0) (JSNum.of_Z 0) (canvas_width s)
        (canvas_height s)
  | None =>
      FillRect (JSNum.of_Z 0) (JSNum.of_Z 0) (canvas_width s)
        (canvas_height s)
  end.

Definition border_calls (s : AppState) : list PaintCall :=
  if BorderOptions.enabled (borderOptions s)
     && (Some (BorderOptions.width (borderOptions s)) >? JSNum.of_Z 0)%js
  then [StrokeRect (JSNum.of_Z 0) (JSNum.of_Z 0) (canvas_width s)
          (canvas_height s)]
  else [].

Definition date_calls (s : AppState) (today : JSDate) : list PaintCall :=
  if DateOptions.enabled (dateOptions s) then
    [StrokeText (dateString today) (canvas_width s - JSNum.of_Z 20)%js
       (canvas_height s - JSNum.of_Z 20)%js;
     FillText (dateString today) (canvas_width s - JSNum.of_Z 20)%js
       (canvas_height s - JSNum.of_Z 20)%js]
  else [].

(** A text layer: its stroke, when it has one, under its fill, both at
    the layer's position.  An image layer: its decoded image, centred at
    the layer's position and stretched to the declared size; nothing while
    the image is not in the cache. *)
Definition layer_calls (s : AppState) (layer : Layer) : list PaintCall :=
  if type_is layer "text" then
    (if (num (layer !! "strokeWidth") >? JSNum.of_Z 0)%js
     then [StrokeText (toStr (layer !! "content")) (num (layer !! "x"))
             (num (layer !! "y"))]
     else [])
    ++ [FillText (toStr (layer !! "content")) (num (layer !! "x"))
          (num (layer !! "y"))]
  else if type_is layer "image" then
    match imageObjects s !! toStr (layer !! "src") with
    | Some img =>
        [DrawImage img
           (num (layer !! "x") - num (layer !! "width") / JSNum.of_Z 2)%js
           (num (layer !! "y") - num (layer !! "height") / JSNum.of_Z 2)%js
           (num (layer !! "width")) (num (layer !! "height"))]
    | None => []
    end
  else [].

(** The outline: the layer's box padded by 10 for text, by 5 otherwise. *)
Definition selection_calls (s : AppState) : list PaintCall :=
  match selectedLayer s with
  | Some layer =>
      let pad := if type_is layer "text" then 10%Z else 5%Z in
      let '(w, h) := box_size layer in
      [StrokeRect
         (num (layer !! "x") - w / JSNum.of_Z 2 - JSNum.of_Z pad)%js
         (num (layer !! "y") - h / JSNum.of_Z 2 - JSNum.of_Z pad)%js
         (w + JSNum.of_Z (2 * pad))%js (h + JSNum.of_Z (2 * pad))%js]
  | None => []
  end.

Definition tagged (p : Phase) (ks : list PaintCall)
  : list (Phase * PaintCall) :=
  (fun k => (p, k)) <$> ks.

Fixpoint layers_trace (s : AppState) (i : nat) (ls : list Layer)
  : list (Phase * PaintCall) :=
  match ls with
  | [] => []
  | layer :: ls' =>
      tagged (PLayer i) (layer_calls s layer) ++ layers_trace s (S i) ls'
  end.

Definition scene_trace (s : AppState) (today : JSDate)
  : list (Phase * PaintCall) :=
  tagged PClear
    [ClearRect (JSNum.of_Z 0) (JSNum.of_Z 0) (canvas_width s)
       (canvas_height s)]
  ++ tagged PBackground [background_call s]
  ++ tagged PBorder (border_calls s)
  ++ tagged PDate (date_calls s today)
  ++ layers_trace s 0 (layers s)
  ++ tagged PSelection (selection_calls s).

(** The order of the parts: the clear, the background, the border, the
    date, layer 0, layer 1, ..., the selection outline. *)
Definition phase_rank (p : Phase) : nat * nat :=
  match p with
  | PClear => (0, 0)
  | PBackground => (1, 0)
  | PBorder => (2, 0)
  | PDate => (3, 0)
  | PLayer i => (4, i)
  | PSelection => (5, 0)
  end%nat.

Definition phase_le (p q : Phase) : Prop :=
  ((phase_rank p).1 < (phase_rank q).1
   \/ ((phase_rank p).1 = (phase_rank q).1
       /\ (phase_rank p).2 <= (phase_rank q).2))%nat.

Definition painted_no_later (a b : Phase * PaintCall) : Prop :=
  phase_le a.1 b.1.

(** [op] keeps the marker and adds exactly the calls [ks] to the log,
    under the marker. *)
Definition emits (ks : list PaintCall) (op : CtxOp) : Prop :=
  forall c : Context2D,
    marker (op c) = marker c /\
    exists es : list Painted,
      log (op c) = log c ++ es /\ shown <$> es = tagged (marker c) ks.

(** [op] adds exactly the trace [tr] to the log. *)
Definition runs (tr : list (Phase * PaintCall)) (op : CtxOp) : Prop :=
  forall c : Context2D,
    exists es : list Painted, log (op c) = log c ++ es /\ shown <$> es = tr.

(** The specification's [loadAll()]: the template list after the effect
    of lines 63-71 has run on the first render. *)
Definition loadAll (w : World) : list Template.t :=
  templates (dispatch loadTemplatesEffect (initialState, w)).1.

(** The template [saveTemplate] builds from the live state. *)
Definition snapshot (name : string) (s : AppState) : Template.t :=
  Template.mk name (layers s) (canvasSize s) (backgroundColor s)
    (borderOptions s) (dateOptions s).

(** *** The image-loading effect and the events of a session *)

(** The sources the effect of lines 74-94 starts decoding: those of the
    image layers and of the background that are non-empty and not in the
    cache. *)
Definition imageRequests (s : AppState) : list string :=
  flat_map
    (fun layer =>
       if truthy (layer !! "src")
          && is_null (imageObjects s !! toStr (layer !! "src"))
       then [toStr (layer !! "src")] else [])
    (List.filter (fun l => type_is l "image") (layers s))
  ++ match backgroundImage s with
     | Some src =>
         if negb (String.eqb src "") && is_null (imageObjects s !! src)
         then [src] else []
     | None => []
     end.

(** What can happen after the first render: a handler or a callback
    runs.  A callback installed by an earlier render carries that render
    ([clicked]); a template is applied from the list the panel shows. *)
Inductive Event :=
| PointerDown (pos : Pos)
| PointerMove (pos : Pos)
| PointerUp
| LayerPropChange (prop : string) (value : JSValue)
| DeleteLayer
| AddText
| ImageLayerLoaded (clicked : AppState) (imgSrc : string)
    (img_width img_height : Q)
| ImageDecoded (src : string)
| Download
| SaveTemplate (answer : option string)
| ApplyTemplate (template : Template.t)
| DeleteTemplate (name : string)
| BackgroundColor (value : string)
| BackgroundImage (file : option string)
| CanvasPreset (size : CanvasSize.t)
| BorderEnabled (checked : bool)
| BorderWidth (value : Q)
| BorderColor (value : string)
| DateEnabled (checked : bool).

Definition step (e : Event) (sw : AppState * World) : AppState * World :=
  match e with
  | PointerDown pos => dispatch (handleMouseDown pos) sw
  | PointerMove pos => dispatch (handleMouseMove pos) sw
  | PointerUp => dispatch handleMouseUp sw
  | LayerPropChange prop value =>
      dispatch (handleLayerPropChange prop value) sw
  | DeleteLayer => dispatch deleteSelectedLayer sw
  | AddText => (commit (addLayer_text sw.1) sw.1, sw.2)
  | ImageLayerLoaded clicked imgSrc img_width img_height =>
      (commit (addLayer_image_onload clicked imgSrc img_width img_height)
         sw.1, sw.2)
  | ImageDecoded src => (commit (onImageDecoded src) sw.1, sw.2)
  | Download => dispatch handleDownload sw
  | SaveTemplate answer => dispatch (saveTemplate answer) sw
  | ApplyTemplate template => dispatch (loadTemplate template) sw
  | DeleteTemplate name => dispatch (deleteTemplate name) sw
  | BackgroundColor value => dispatch (onBackgroundColorChange value) sw
  | BackgroundImage file => dispatch (onBackgroundImageChange file) sw
  | CanvasPreset size => (commit (onCanvasPreset size) sw.1, sw.2)
  | BorderEnabled checked => (commit (onBorderEnabledChange checked) sw.1, sw.2)
  | BorderWidth value => (commit (onBorderWidthChange value) sw.1, sw.2)
  | BorderColor value => (commit (onBorderColorChange value) sw.1, sw.2)
  | DateEnabled checked => (commit (onDateEnabledChange checked) sw.1, sw.2)
  end.

(** The states of a session: the first render, once the templates are
    loaded, and whatever a sequence of events leads to. *)
Inductive reachable : AppState * World -> Prop :=
| reachable_mount (items : gmap string string) :
    reachable
      (dispatch loadTemplatesEffect
         (initialState, mkWorld initialDragInfo items))
| reachable_step (e : Event) (sw : AppState * World) :
    reachable sw -> reachable (step e sw).

(** *** Shadows *)

(** The context properties [drawText] assigns when a layer's shadow is
    enabled (lines 154-157). *)
Definition shadow_keys : list string :=
  ["shadowColor"; "shadowBlur"; "shadowOffsetX"; "shadowOffsetY"].

Definition same_shadow (p q : gmap string JSValue) : Prop :=
  forall k : string, k ∈ shadow_keys -> p !! k = q !! k.

Definition shadowed (layer : Layer) : Prop :=
  type_is layer "text" = true /\ truthy (layer !! "shadowEnabled") = true.

(** The entry is a call of a shadowed text layer of [s], or it was made
    with the shadow settings of [p]. *)
Definition shadow_confined (s : AppState) (p : gmap string JSValue)
  (e : Painted) : Prop :=
  (exists (j : nat) (layer : Layer),
      phase e = PLayer j /\ layers s !! j = Some layer /\ shadowed layer)
  \/ same_shadow (style e) p.

(** [op] keeps the shadow settings of the context it runs in, and every
    call it makes is confined in the sense above. *)
Definition confines (s : AppState) (op : CtxOp) : Prop :=
  forall c : Context2D,
    same_shadow (props (op c)) (props c) /\
    exists es : list Painted,
      log (op c) = log c ++ es /\ Forall (shadow_confined s (props c)) es.

(** *** Dashes *)

(** The entry is a call of the selection outline, dashed 6 on and 3
    off, or it is another call, made with the dash pattern [d]. *)
Definition dash_of (d : list Q) (e : Painted) : Prop :=
  (phase e = PSelection /\ dash e = [6; 3]%Q)
  \/ (phase e <> PSelection /\ dash e = d).

(** [op] is no part of the outline: it keeps the dash pattern of the
    context it runs in and makes every call with it. *)
Definition plain (op : CtxOp) : Prop :=
  forall c : Context2D,
    marker c <> PSelection ->
    lineDash (op c) = lineDash c /\ marker (op c) <> PSelection /\
    exists es : list Painted,
      log (op c) = log c ++ es /\
      Forall (fun e => phase e <> PSelection /\ dash e = lineDash c) es.

(** [op] dashes the calls of the outline only and leaves the pattern
    [final d] behind, where [d] is the pattern it started with. *)
Definition outlined (final : list Q -> list Q) (op : CtxOp) : Prop :=
  forall c : Context2D,
    marker c <> PSelection ->
    lineDash (op c) = final (lineDash c) /\
    exists es : list Painted,
      log (op c) = log c ++ es /\ Forall (dash_of (lineDash c)) es.

(** *** Arrays *)

Lemma findIndex_from_spec {A : Type} (p : A -> bool) (l : list A) (i : Z) :
  (0 <= i)%Z ->
  (JSArray.findIndex_from p i l = (-1)%Z /\
     Forall (fun a => p a = false) l) \/
  (exists (k : nat) (a : A),
     JSArray.findIndex_from p i l = (i + Z.of_nat k)%Z /\
     l !! k = Some a /\ p a = true /\
     forall (j : nat) (b : A), (j < k)%nat -> l !! j = Some b ->
                               p b = false).
Proof.
  revert i. induction l as [|a l IH]; intros i Hi; simpl.
  - left. split; [reflexivity | constructor].
  - destruct (p a) eqn:Hpa.
    + right. exists 0%nat, a. repeat split; auto.
      * lia.
      * intros j b Hj. lia.
    + destruct (IH (i + 1)%Z ltac:(lia)) as [[Hnone Hall] | (k & b & Hk & Hb & Hpb & Hmin)].
      * left. split; [exact Hnone | constructor; assumption].
      * right. exists (S k), b. repeat split; auto.
        -- rewrite Hk. lia.
        -- intros [|j] c Hj Hc; simpl in Hc.
           ++ congruence.
           ++ apply (Hmin j); [lia | exact Hc].
Qed.

Lemma map_from_lookup {A : Type} (f : A -> nat -> A) (l : list A)
  (i k : nat) :
  JSArray.map_from f i l !! k = (fun a => f a (i + k)%nat) <$> l !! k.
Proof.
  revert i k. induction l as [|a l IH]; intros i [|k]; simpl; auto.
  - f_equal. f_equal. lia.
  - rewrite IH. destruct (l !! k); simpl; [|reflexivity].
    do 2 f_equal. lia.
Qed.

Lemma map_from_length {A : Type} (f : A -> nat -> A) (l : list A) (i : nat) :
  length (JSArray.map_from f i l) = length l.
Proof. revert i. induction l; intros; simpl; auto. Qed.

Lemma filter_from_delete {A : Type} (l : list A) (i sel : nat) :
  JSArray.filter_from (fun _ index => negb (Nat.eqb index sel)) i l
  = if (sel <? i)%nat then l else delete (sel - i)%nat l.
Proof.
  revert i. induction l as [|a l IH]; intros i; simpl.
  - destruct (sel <? i)%nat; reflexivity.
  - rewrite IH. destruct (Nat.eqb_spec i sel) as [->|Hne]; simpl.
    + rewrite Nat.sub_diag. simpl.
      destruct (Nat.ltb_spec sel sel); [lia|].
      destruct (Nat.ltb_spec sel (S sel)); [reflexivity | lia].
    + destruct (Nat.ltb_spec sel i), (Nat.ltb_spec sel (S i));
        try lia; try reflexivity.
      replace (sel - i)%nat with (S (sel - S i)) by lia. reflexivity.
Qed.

(** *** The hit rectangle is the specification's box *)

Lemma box_edge (x w : Q) : (x - w / 2 + w == x + w / 2)%Q.
Proof. field. Qed.

Lemma inRect_spec (px py x y w h : Q) :
  inRect (mkPos (Some px) (Some py))
    (mkRect (Some x - Some w / JSNum.of_Z 2)%js
       (Some y - Some h / JSNum.of_Z 2)%js (Some w) (Some h)) = true
  <-> ((x - w / 2 <= px /\ px <= x + w / 2)
       /\ (y - h / 2 <= py /\ py <= y + h / 2))%Q.
Proof.
  unfold inRect; simpl.
  rewrite !andb_true_iff, !Qle_bool_iff.
  change (inject_Z 2) with 2%Q.
  rewrite !box_edge. tauto.
Qed.

Lemma inRect_NaN (pos : Pos) (rect : Rect) :
  pos_x pos = None \/ pos_y pos = None \/ rect_x rect = None
  \/ rect_y rect = None \/ rect_width rect = None
  \/ rect_height rect = None ->
  inRect pos rect = false.
Proof.
  destruct pos as [[px|] [py|]], rect as [[x|] [y|] [w|] [h|]];
    unfold inRect; simpl; intros H;
    repeat (destruct H as [H|H]; try discriminate);
    try discriminate; try reflexivity;
    rewrite ?andb_false_r; reflexivity.
Qed.

Lemma hits_in_box (pos : Pos) (layer : Layer) :
  hits pos layer = true <-> in_box pos layer.
Proof.
  unfold hits, in_box, hitRect, box_size.
  destruct pos as [opx opy]; simpl.
  destruct (type_is layer "text").
  - destruct opx as [px|], opy as [py|],
      (num (layer !! "x")) as [x|], (num (layer !! "y")) as [y|],
      (measureText (fontOf layer) (toStr (layer !! "content"))) as [w|],
      (num (layer !! "fontSize")) as [h|];
      try (split;
           [ intros H; rewrite inRect_NaN in H by (simpl; tauto);
             discriminate
           | intros (?&?&?&?&?&?&?&?&?&?&?&?); simplify_eq ]).
    rewrite inRect_spec. split.
    + intros [? ?]. exists px, py, x, y, w, h. tauto.
    + intros (?&?&?&?&?&?&?&?&?&?&?&?&?). simplify_eq. tauto.
  - destruct opx as [px|], opy as [py|],
      (num (layer !! "x")) as [x|], (num (layer !! "y")) as [y|],
      (num (layer !! "width")) as [w|],
      (num (layer !! "height")) as [h|];
      try (split;
           [ intros H; rewrite inRect_NaN in H by (simpl; tauto);
             discriminate
           | intros (?&?&?&?&?&?&?&?&?&?&?&?); simplify_eq ]).
    rewrite inRect_spec. split.
    + intros [? ?]. exists px, py, x, y, w, h. tauto.
    + intros (?&?&?&?&?&?&?&?&?&?&?&?&?). simplify_eq. tauto.
Qed.

(** *** Pointer-down *)

Definition topmost_hit (pos : Pos) (ls : list Layer) (i : nat) : Prop :=
  (exists layer, ls !! i = Some layer /\ hits pos layer = true) /\
  forall (j : nat) (b : Layer), (i < j)%nat -> ls !! j = Some b ->
                                hits pos b = false.

Lemma clicked_spec (pos : Pos) (ls : list Layer) :
  let c := JSArray.findIndex (hits pos) (JSArray.reverse ls) in
  (c = (-1)%Z /\ Forall (fun l => hits pos l = false) ls) \/
  (exists i : nat,
     c <> (-1)%Z /\ Z.to_nat (Z.of_nat (length ls) - 1 - c) = i /\
     topmost_hit pos ls i).
Proof.
  cbv zeta. unfold JSArray.findIndex, JSArray.reverse.
  change (rev_append ls []) with (reverse ls).
  destruct (findIndex_from_spec (hits pos) (reverse ls) 0 ltac:(lia))
    as [[Hc Hall] | (k & a & Hc & Ha & Hpa & Hmin)].
  - left. split; [exact Hc|]. apply Forall_reverse. exact Hall.
  - right. apply reverse_lookup_Some in Ha as [Ha Hk].
    exists (length ls - S k)%nat. rewrite Hc. split; [lia|].
    split; [lia|]. split; [eauto|].
    intros j b Hj Hb.
    assert (j < length ls)%nat as Hlen by (eapply lookup_lt_Some; eauto).
    apply (Hmin (length ls - S j)%nat); [lia|].
    apply reverse_lookup_Some. split; [|lia].
    replace (length ls - S (length ls - S j))%nat with j by lia.
    exact Hb.
Qed.

Lemma topmost_hit_unique (pos : Pos) (ls : list Layer) (i j : nat) :
  topmost_hit pos ls i -> topmost_hit pos ls j -> i = j.
Proof.
  intros [(a & Ha & Hpa) Hi] [(b & Hb & Hpb) Hj].
  destruct (Nat.lt_trichotomy i j) as [Hlt | [Heq | Hgt]]; auto.
  - rewrite (Hi j b Hlt Hb) in Hpb. discriminate.
  - rewrite (Hj i a Hgt Ha) in Hpa. discriminate.
Qed.

Lemma handleMouseDown_hit (pos : Pos) (s : AppState) (w : World) (i : nat) :
  topmost_hit pos (layers s) i ->
  dispatch (handleMouseDown pos) (s, w)
  = (reduce s (SetSelectedLayerIndex (Some i)),
     mkWorld
       (mkDragInfo true (Some i) (pos_x pos - layerNum s i "x")%js
          (pos_y pos - layerNum s i "y")%js)
       (localStorage w)).
Proof.
  intros Htop. unfold dispatch, handleMouseDown. simpl.
  destruct (clicked_spec pos (layers s))
    as [[Hc Hall] | (k & Hc & Hk & Htop')].
  - destruct Htop as [(a & Ha & Hpa) _].
    rewrite Forall_lookup in Hall. rewrite (Hall i a Ha) in Hpa.
    discriminate.
  - assert (k = i) as -> by (eapply topmost_hit_unique; eauto).
    destruct (Z.eqb_spec
                (JSArray.findIndex (hits pos) (JSArray.reverse (layers s)))
                (-1)) as [Heq|_]; [contradiction|].
    simpl. rewrite Hk. reflexivity.
Qed.

Lemma handleMouseDown_miss (pos : Pos) (s : AppState) (w : World) :
  Forall (fun l => hits pos l = false) (layers s) ->
  dispatch (handleMouseDown pos) (s, w)
  = (reduce s (SetSelectedLayerIndex None), w).
Proof.
  intros Hall. unfold dispatch, handleMouseDown. simpl.
  destruct (clicked_spec pos (layers s))
    as [[Hc _] | (k & _ & _ & (a & Ha & Hpa) & _)].
  - rewrite Hc. simpl. destruct w; reflexivity.
  - rewrite Forall_lookup in Hall. rewrite (Hall k a Ha) in Hpa.
    discriminate.
Qed.

Lemma handleMouseDown_cases (pos : Pos) (s : AppState) :
  Forall (fun l => hits pos l = false) (layers s)
  \/ exists i, topmost_hit pos (layers s) i.
Proof.
  destruct (clicked_spec pos (layers s)) as [[_ H] | (i & _ & _ & H)];
    eauto.
Qed.


(** *** Layer handlers *)

Lemma handleLayerPropChange_layers (prop : string) (value : JSValue)
  (s : AppState) (w : World) (i : nat) :
  selectedLayerIndex s = Some i ->
  dispatch (handleLayerPropChange prop value) (s, w)
  = (reduce s
       (SetLayers
          (JSArray.map
             (fun layer index =>
                if Nat.eqb index i then <[prop := value]> layer else layer)
             (layers s))), w).
Proof.
  intros Hsel. unfold dispatch, handleLayerPropChange. cbn [fst snd].
  rewrite Hsel. destruct w; reflexivity.
Qed.

Lemma handleLayerPropChange_none (prop : string) (value : JSValue)
  (s : AppState) (w : World) :
  selectedLayerIndex s = None ->
  dispatch (handleLayerPropChange prop value) (s, w) = (s, w).
Proof.
  intros Hsel. unfold dispatch, handleLayerPropChange. cbn [fst snd].
  rewrite Hsel. destruct w; reflexivity.
Qed.

Lemma map_selected_lookup (prop : string) (value : JSValue)
  (ls : list Layer) (i j : nat) :
  JSArray.map
    (fun layer index =>
       if Nat.eqb index i then <[prop := value]> layer else layer) ls !! j
  = (fun layer => if Nat.eqb j i then <[prop := value]> layer else layer)
      <$> ls !! j.
Proof. unfold JSArray.map. rewrite map_from_lookup. reflexivity. Qed.

Lemma type_is_insert_ne (prop : string) (value : JSValue) (layer : Layer)
  (t : string) :
  prop <> "type" -> type_is (<[prop := value]> layer) t = type_is layer t.
Proof.
  intros Hne. unfold type_is. rewrite lookup_insert_ne by exact Hne.
  reflexivity.
Qed.

(** C5, as amended.  [handleLayerPropChange prop value] leaves the state
    as it is when no layer is selected; otherwise it keeps the length of
    the layer list and every other layer, and the selected layer gets
    [prop] set to [value] with every other property as before.  The
    layer's type tag is as before whenever [prop] is not "type". *)
Theorem layer_prop_change (prop : string) (value : JSValue) (s : AppState)
  (w : World) :
  let s' := (dispatch (handleLayerPropChange prop value) (s, w)).1 in
  match selectedLayerIndex s with
  | None => s' = s
  | Some i =>
      length (layers s') = length (layers s) /\
      (forall j : nat, j <> i -> layers s' !! j = layers s !! j) /\
      (forall layer : Layer,
          layers s !! i = Some layer ->
          exists layer' : Layer,
            layers s' !! i = Some layer' /\
            layer' !! prop = Some value /\
            (forall k : string, k <> prop -> layer' !! k = layer !! k) /\
            (prop <> "type" ->
             forall t : string, type_is layer' t = type_is layer t))
  end.
Proof.
  destruct (selectedLayerIndex s) as [i|] eqn:Hsel; cbv zeta.
  - rewrite (handleLayerPropChange_layers prop value s w i Hsel). simpl.
    split; [apply map_from_length|]. split.
    + intros j Hj. rewrite map_selected_lookup.
      destruct (Nat.eqb_spec j i); [contradiction|].
      destruct (layers s !! j); reflexivity.
    + intros layer Hl. exists (<[prop := value]> layer).
      rewrite map_selected_lookup, Hl, Nat.eqb_refl. simpl.
      split; [reflexivity|]. split; [apply lookup_insert_eq|]. split.
      * intros k Hk. apply lookup_insert_ne. congruence.
      * intros Hne t. apply type_is_insert_ne. exact Hne.
  - rewrite handleLayerPropChange_none by exact Hsel. reflexivity.
Qed.

(** C6.  [deleteSelectedLayer] leaves no selection behind, so the
    selection never points into the shortened list; the layer list loses
    exactly the layer at the selected index, and is as before when nothing
    was selected. *)
Theorem delete_selected_layer (s : AppState) (w : World) :
  let s' := (dispatch deleteSelectedLayer (s, w)).1 in
  selectedLayerIndex s' = None /\
  selectedLayer s' = None /\
  match selectedLayerIndex s with
  | Some i => layers s' = take i (layers s) ++ drop (S i) (layers s)
  | None => layers s' = layers s
  end.
Proof.
  unfold dispatch, deleteSelectedLayer, selectedLayer. simpl.
  destruct (selectedLayerIndex s) as [i|] eqn:Hsel; simpl.
  - repeat split; try reflexivity.
    unfold JSArray.filter. rewrite filter_from_delete. simpl.
    rewrite Nat.sub_0_r. apply delete_take_drop.
  - rewrite Hsel. repeat split; reflexivity.
Qed.

(** *** Dragging *)

(** What one pointer-move commits while a drag is on: both setter calls
    were computed from the layers of the last render, and the second one
    replaces the first. *)
Lemma handleMouseMove_commits (pos : Pos) (s : AppState) (w : World)
  (i target : nat) :
  selectedLayerIndex s = Some i ->
  isDragging (dragInfo w) = true ->
  targetIndex (dragInfo w) = Some target ->
  dispatch (handleMouseMove pos) (s, w)
  = (reduce s
       (SetLayers
          (JSArray.map
             (fun layer index =>
                if Nat.eqb index i
                then <["y" := VNum (pos_y pos - startY (dragInfo w))%js]> layer
                else layer)
             (layers s))), w).
Proof.
  intros Hsel Hdrag Htarget.
  unfold dispatch, handleMouseMove, handleLayerPropChange, andThen.
  cbn [fst snd world]. rewrite Hdrag, Htarget, Hsel.
  destruct w; reflexivity.
Qed.

(** *** The paint log of the rendering effect *)

Lemma emits_quiet (op : CtxOp) :
  (forall c, marker (op c) = marker c /\ log (op c) = log c) ->
  emits [] op.
Proof.
  intros H c. destruct (H c) as [Hm Hl]. split; [exact Hm|].
  exists []. rewrite Hl, app_nil_r. split; reflexivity.
Qed.

Lemma emits_skip : emits [] skip.
Proof. apply emits_quiet. intros c. split; reflexivity. Qed.

Lemma emits_assign (k : string) (v : JSValue) : emits [] (assign k v).
Proof. apply emits_quiet. intros c. split; reflexivity. Qed.

Lemma emits_assign_prop (k : string) (v : option JSValue) :
  emits [] (assign_prop k v).
Proof. destruct v; [apply emits_assign | apply emits_skip]. Qed.

Lemma emits_setLineDash (d : list Q) : emits [] (setLineDash d).
Proof. apply emits_quiet. intros c. split; reflexivity. Qed.

Lemma emits_save : emits [] save.
Proof. apply emits_quiet. intros c. split; reflexivity. Qed.

Lemma emits_restore : emits [] restore.
Proof.
  apply emits_quiet. intros c. unfold restore.
  destruct (saved c) as [|[p d] rest]; split; reflexivity.
Qed.

Lemma emits_paint (k : PaintCall) : emits [k] (paint k).
Proof.
  intros c. split; [reflexivity|].
  exists [mkPainted (marker c) k (props c) (lineDash c)].
  split; reflexivity.
Qed.

Lemma emits_seq (ks1 ks2 : list PaintCall) (op1 op2 : CtxOp) :
  emits ks1 op1 -> emits ks2 op2 -> emits (ks1 ++ ks2) (op1 ;> op2).
Proof.
  intros H1 H2 c. unfold andThen.
  destruct (H1 c) as (Hm1 & es1 & Hl1 & Hs1).
  destruct (H2 (op1 c)) as (Hm2 & es2 & Hl2 & Hs2).
  split; [congruence|].
  exists (es1 ++ es2). split.
  - rewrite Hl2, Hl1, app_assoc. reflexivity.
  - unfold tagged in *. rewrite !fmap_app, Hs1, Hs2, Hm1. reflexivity.
Qed.

Lemma emits_quiet_seq (ks : list PaintCall) (op1 op2 : CtxOp) :
  emits [] op1 -> emits ks op2 -> emits ks (op1 ;> op2).
Proof. intros H1 H2. apply (emits_seq [] ks); assumption. Qed.

Lemma emits_seq_quiet (ks : list PaintCall) (op1 op2 : CtxOp) :
  emits ks op1 -> emits [] op2 -> emits ks (op1 ;> op2).
Proof.
  intros H1 H2. rewrite <- (app_nil_r ks). apply emits_seq; assumption.
Qed.

Create HintDb paint.

#[local] Hint Resolve emits_skip emits_assign emits_assign_prop
  emits_setLineDash emits_save emits_restore emits_paint : paint.

Ltac quiet_steps :=
  repeat (apply emits_quiet_seq; [solve [auto with paint]|]).

Lemma emits_drawText (s : AppState) (layer : Layer) :
  type_is layer "text" = true ->
  emits (layer_calls s layer) (drawText layer).
Proof.
  intros Htext. unfold layer_calls, drawText. rewrite Htext.
  quiet_steps.
  apply emits_quiet_seq.
  { destruct (truthy (layer !! "shadowEnabled")); [|auto with paint].
    quiet_steps. apply emits_assign_prop. }
  apply emits_seq.
  - destruct (num (layer !! "strokeWidth") >? JSNum.of_Z 0)%js;
      [|auto with paint].
    quiet_steps. auto with paint.
  - apply emits_seq_quiet; auto with paint.
Qed.

Lemma emits_paintLayer (s : AppState) (layer : Layer) :
  emits (layer_calls s layer) (paintLayer s layer).
Proof.
  unfold paintLayer. destruct (type_is layer "text") eqn:Htext.
  - apply emits_drawText. exact Htext.
  - unfold layer_calls. rewrite Htext.
    destruct (type_is layer "image"); [|auto with paint].
    destruct (imageObjects s !! toStr (layer !! "src")); [|auto with paint].
    unfold drawImage. auto with paint.
Qed.

Lemma emits_drawSelection (s : AppState) (layer : Layer) :
  selectedLayer s = Some layer ->
  emits (selection_calls s) (drawSelection layer).
Proof.
  intros Hsel. unfold selection_calls, drawSelection, box_size.
  rewrite Hsel. quiet_steps. apply emits_seq_quiet; [|auto with paint].
  destruct (type_is layer "text").
  - quiet_steps. apply emits_paint.
  - apply emits_paint.
Qed.

Lemma runs_block (p : Phase) (ks : list PaintCall) (op : CtxOp) :
  emits ks op -> runs (tagged p ks) (enter p ;> op).
Proof.
  intros H c. unfold andThen.
  destruct (H (enter p c)) as (_ & es & Hl & Hs).
  exists es. split; assumption.
Qed.

Lemma runs_seq (t1 t2 : list (Phase * PaintCall)) (op1 op2 : CtxOp) :
  runs t1 op1 -> runs t2 op2 -> runs (t1 ++ t2) (op1 ;> op2).
Proof.
  intros H1 H2 c. unfold andThen.
  destruct (H1 c) as (es1 & Hl1 & Hs1).
  destruct (H2 (op1 c)) as (es2 & Hl2 & Hs2).
  exists (es1 ++ es2). split.
  - rewrite Hl2, Hl1, app_assoc. reflexivity.
  - rewrite fmap_app, Hs1, Hs2. reflexivity.
Qed.

Lemma runs_block_seq (p : Phase) (ks : list PaintCall)
  (t : list (Phase * PaintCall)) (op rest : CtxOp) :
  emits ks op -> runs t rest -> runs (tagged p ks ++ t) (enter p ;> op ;> rest).
Proof.
  intros H1 H2.
  change (enter p ;> op ;> rest) with ((enter p ;> op) ;> rest).
  apply runs_seq; [apply runs_block; exact H1 | exact H2].
Qed.

Lemma runs_layers (s : AppState) (ls : list Layer) (i : nat) :
  runs (layers_trace s i ls)
    (forEach_from (fun layer i => enter (PLayer i) ;> paintLayer s layer) i ls).
Proof.
  revert i. induction ls as [|layer ls IH]; intros i; simpl.
  - intros c. exists []. rewrite app_nil_r. split; reflexivity.
  - apply runs_seq; [|apply IH].
    apply runs_block, emits_paintLayer.
Qed.

Lemma runs_render (s : AppState) (today : JSDate) :
  runs (scene_trace s today) (render s today).
Proof.
  unfold scene_trace, render. cbv zeta.
  apply runs_block_seq; [apply emits_paint|].
  apply runs_block_seq.
  { unfold background_call.
    destruct (resolvedBackground s); [apply emits_paint|].
    quiet_steps. apply emits_paint. }
  apply runs_block_seq.
  { unfold border_calls.
    destruct (BorderOptions.enabled (borderOptions s)
              && (Some (BorderOptions.width (borderOptions s))
                  >? JSNum.of_Z 0)%js); [|auto with paint].
    quiet_steps. apply emits_paint. }
  apply runs_block_seq.
  { unfold date_calls.
    destruct (DateOptions.enabled (dateOptions s)); [|auto with paint].
    quiet_steps. apply (emits_seq [_] [_]); apply emits_paint. }
  apply runs_seq; [apply runs_layers|].
  apply runs_block.
  destruct (selectedLayer s) as [layer|] eqn:Hsel.
  - apply emits_drawSelection. exact Hsel.
  - unfold selection_calls. rewrite Hsel. auto with paint.
Qed.

Lemma painted_shown (s : AppState) (today : JSDate) (c : Context2D) :
  log (render s today c) = log c ++ painted s today c /\
  shown <$> painted s today c = scene_trace s today.
Proof.
  unfold painted. destruct (runs_render s today c) as (es & Hl & Hs).
  rewrite Hl, drop_app_length. split; [reflexivity | exact Hs].
Qed.

(** *** The order of the trace *)

Lemma tagged_phase (p : Phase) (ks : list PaintCall) :
  Forall (fun a => a.1 = p) (tagged p ks).
Proof.
  unfold tagged. apply Forall_fmap, Forall_forall. intros; reflexivity.
Qed.

Lemma phase_le_refl (p : Phase) : phase_le p p.
Proof. unfold phase_le. right. split; reflexivity. Qed.

Lemma same_phase_sorted (p : Phase) (tr : list (Phase * PaintCall)) :
  Forall (fun a => a.1 = p) tr -> StronglySorted painted_no_later tr.
Proof.
  induction 1 as [|a tr Ha Htr IH]; constructor; [exact IH|].
  eapply Forall_impl; [exact Htr|]. intros b Hb. unfold painted_no_later.
  rewrite Ha, Hb. apply phase_le_refl.
Qed.

Lemma layers_trace_phase (s : AppState) (ls : list Layer) (i : nat) :
  Forall (fun a => exists j : nat, a.1 = PLayer j /\ (i <= j)%nat)
    (layers_trace s i ls).
Proof.
  revert i. induction ls as [|layer ls IH]; intros i; simpl.
  - constructor.
  - apply Forall_app. split.
    + eapply Forall_impl; [apply tagged_phase|]. intros a Ha.
      exists i. split; [exact Ha | lia].
    + eapply Forall_impl; [apply (IH (S i))|].
      intros a (j & Ha & Hj). exists j. split; [exact Ha | lia].
Qed.

Lemma layers_trace_sorted (s : AppState) (ls : list Layer) (i : nat) :
  StronglySorted painted_no_later (layers_trace s i ls).
Proof.
  revert i. induction ls as [|layer ls IH]; intros i; simpl.
  - constructor.
  - apply StronglySorted_app. split; [|split].
    + intros a b Ha Hb.
      pose proof (tagged_phase (PLayer i) (layer_calls s layer)) as H1.
      pose proof (layers_trace_phase s ls (S i)) as H2.
      rewrite Forall_forall in H1, H2.
      specialize (H1 a Ha). destruct (H2 b Hb) as (j & Hj & Hij).
      unfold painted_no_later, phase_le. rewrite H1, Hj. simpl.
      right. split; [reflexivity | lia].
    + eapply same_phase_sorted, tagged_phase.
    + apply IH.
Qed.

Lemma sorted_app_stage (n : nat) (t1 t2 : list (Phase * PaintCall)) :
  StronglySorted painted_no_later t1 ->
  StronglySorted painted_no_later t2 ->
  Forall (fun a => ((phase_rank a.1).1 <= n)%nat) t1 ->
  Forall (fun a => (n < (phase_rank a.1).1)%nat) t2 ->
  StronglySorted painted_no_later (t1 ++ t2).
Proof.
  intros H1 H2 Hlo Hhi. apply StronglySorted_app.
  split; [|split; assumption].
  intros a b Ha Hb. rewrite Forall_forall in Hlo, Hhi.
  specialize (Hlo a Ha). specialize (Hhi b Hb).
  unfold painted_no_later, phase_le. left. lia.
Qed.

Lemma tagged_stage (p : Phase) (ks : list PaintCall) :
  Forall (fun a => (phase_rank a.1).1 = (phase_rank p).1) (tagged p ks).
Proof.
  eapply Forall_impl; [apply tagged_phase|]. intros a ->. reflexivity.
Qed.

Lemma layers_trace_stage (s : AppState) (ls : list Layer) (i : nat) :
  Forall (fun a => (phase_rank a.1).1 = 4%nat) (layers_trace s i ls).
Proof.
  eapply Forall_impl; [apply layers_trace_phase|].
  intros a (j & -> & _). reflexivity.
Qed.

Ltac stage_bounds :=
  repeat (apply Forall_app; split);
  first
    [ eapply Forall_impl; [apply tagged_stage|]; simpl; intros; lia
    | eapply Forall_impl; [apply layers_trace_stage|]; simpl; intros; lia ].

Lemma scene_trace_sorted (s : AppState) (today : JSDate) :
  StronglySorted painted_no_later (scene_trace s today).
Proof.
  unfold scene_trace.
  apply (sorted_app_stage 0);
    [eapply same_phase_sorted, tagged_phase | | stage_bounds..].
  apply (sorted_app_stage 1);
    [eapply same_phase_sorted, tagged_phase | | stage_bounds..].
  apply (sorted_app_stage 2);
    [eapply same_phase_sorted, tagged_phase | | stage_bounds..].
  apply (sorted_app_stage 3);
    [eapply same_phase_sorted, tagged_phase | | stage_bounds..].
  apply (sorted_app_stage 4);
    [apply layers_trace_sorted
    | eapply same_phase_sorted, tagged_phase | stage_bounds..].
Qed.

Lemma layers_trace_app (s : AppState) (l1 l2 : list Layer) (i : nat) :
  layers_trace s i (l1 ++ l2)
  = layers_trace s i l1 ++ layers_trace s (i + length l1) l2.
Proof.
  revert i. induction l1 as [|layer l1 IH]; intros i; simpl.
  - rewrite Nat.add_0_r. reflexivity.
  - rewrite IH, <- app_assoc. do 3 f_equal. lia.
Qed.

Lemma layers_trace_adjacent (s : AppState) (ls : list Layer) (i : nat)
  (a b : Layer) :
  ls !! i = Some a -> ls !! S i = Some b ->
  exists pre post,
    layers_trace s 0 ls
    = pre ++ tagged (PLayer i) (layer_calls s a)
        ++ tagged (PLayer (S i)) (layer_calls s b) ++ post.
Proof.
  intros Ha Hb.
  assert (ls = take i ls ++ a :: b :: drop (S (S i)) ls) as Hsplit.
  { rewrite <- (drop_S ls b (S i) Hb). symmetry.
    apply take_drop_middle. exact Ha. }
  assert (length (take i ls) = i) as Hlen.
  { rewrite length_take. apply lookup_lt_Some in Ha. lia. }
  exists (layers_trace s 0 (take i ls)),
    (layers_trace s (S (S i)) (drop (S (S i)) ls)).
  transitivity
    (layers_trace s 0 (take i ls ++ a :: b :: drop (S (S i)) ls)).
  { rewrite <- Hsplit. reflexivity. }
  rewrite layers_trace_app, Hlen. reflexivity.
Qed.

Lemma layers_trace_elem (s : AppState) (ls : list Layer) (i j : nat)
  (k : PaintCall) :
  (PLayer j, k) ∈ layers_trace s i ls ->
  exists layer, (i <= j)%nat /\ ls !! (j - i)%nat = Some layer
                /\ k ∈ layer_calls s layer.
Proof.
  revert i. induction ls as [|layer ls IH]; intros i; simpl.
  - intros H. inversion H.
  - rewrite elem_of_app. intros [H|H].
    + unfold tagged in H. apply list_elem_of_fmap in H as (k' & Heq & Hk').
      injection Heq as -> ->. exists layer.
      rewrite Nat.sub_diag. auto.
    + destruct (IH (S i) H) as (l' & Hij & Hl' & Hk).
      exists l'. split; [lia|]. split; [|exact Hk].
      replace (j - i)%nat with (S (j - S i)) by lia. exact Hl'.
Qed.

Lemma tagged_elem (p q : Phase) (k : PaintCall) (ks : list PaintCall) :
  (q, k) ∈ tagged p ks -> q = p /\ k ∈ ks.
Proof.
  unfold tagged. intros H. apply list_elem_of_fmap in H as (k' & Heq & Hk').
  injection Heq as -> ->. auto.
Qed.

Lemma scene_trace_layer (s : AppState) (today : JSDate) (j : nat)
  (k : PaintCall) :
  (PLayer j, k) ∈ scene_trace s today ->
  exists layer, layers s !! j = Some layer /\ k ∈ layer_calls s layer.
Proof.
  unfold scene_trace. rewrite !elem_of_app.
  intros [H|[H|[H|[H|[H|H]]]]];
    try (apply tagged_elem in H as [Hp _]; discriminate).
  apply layers_trace_elem in H as (layer & _ & Hl & Hk).
  rewrite Nat.sub_0_r in Hl. eauto.
Qed.

Lemma filter_other_phase (p q : Phase) (ks : list PaintCall) :
  p <> q -> filter (fun a => a.1 = q) (tagged p ks) = [].
Proof.
  intros Hne. unfold tagged. induction ks as [|k ks IH]; [reflexivity|].
  rewrite fmap_cons, filter_cons_False; [exact IH | simpl; congruence].
Qed.

Lemma filter_layers_trace (s : AppState) (ls : list Layer) (i : nat)
  (q : Phase) :
  (forall j, q <> PLayer j) ->
  filter (fun a => a.1 = q) (layers_trace s i ls) = [].
Proof.
  intros Hq. revert i. induction ls as [|layer ls IH]; intros i; simpl.
  - reflexivity.
  - rewrite filter_app, IH, filter_other_phase; [reflexivity|].
    intros H. exact (Hq i (eq_sym H)).
Qed.

Lemma scene_trace_background (s : AppState) (today : JSDate) :
  filter (fun a => a.1 = PBackground) (scene_trace s today)
  = [(PBackground, background_call s)].
Proof.
  unfold scene_trace. rewrite !filter_app.
  rewrite (filter_other_phase PClear), (filter_other_phase PBorder),
    (filter_other_phase PDate), (filter_other_phase PSelection)
    by discriminate.
  rewrite filter_layers_trace by discriminate.
  reflexivity.
Qed.


(** *** The two background modes *)


(** *** A layer whose image is not decoded yet *)

Lemma type_is_image_not_text (layer : Layer) :
  type_is layer "image" = true -> type_is layer "text" = false.
Proof.
  unfold type_is. destruct (layer !! "type") as [[n|t|b|]|]; try discriminate.
  intros H. apply String.eqb_eq in H. subst t. reflexivity.
Qed.


(** *** The template store *)

Lemma JSON_layer_finite (layer : Layer) :
  map_Forall (fun _ v => v <> VNum None) layer ->
  JSON_value <$> layer = layer.
Proof.
  intros Hfin. apply map_eq. intros k. rewrite lookup_fmap.
  destruct (layer !! k) as [v|] eqn:Hk; [|reflexivity]. simpl.
  specialize (Hfin k v Hk). simpl in Hfin.
  destruct v as [[q|]| | |]; try reflexivity. contradiction.
Qed.

Lemma JSON_layers_finite (ls : list Layer) :
  finite_layers ls -> fmap (M := list) (fmap JSON_value) ls = ls.
Proof.
  induction 1 as [|layer ls Hl Hls IH]; [reflexivity|].
  rewrite fmap_cons, IH, JSON_layer_finite by exact Hl. reflexivity.
Qed.

Lemma JSON_template_finite (t : Template.t) :
  finite_layers (Template.layers t) -> JSON_template t = t.
Proof.
  intros Hfin. destruct t. unfold JSON_template. simpl in *.
  rewrite JSON_layers_finite by exact Hfin. reflexivity.
Qed.

Lemma JSON_templates_finite (ts : list Template.t) :
  Forall (fun t => finite_layers (Template.layers t)) ts ->
  JSON_template <$> ts = ts.
Proof.
  induction 1 as [|t ts Ht Hts IH]; [reflexivity|].
  rewrite fmap_cons, IH, JSON_template_finite by exact Ht. reflexivity.
Qed.

Lemma loadAll_absent (w : World) :
  localStorage w !! storageKey = None -> loadAll w = [].
Proof.
  intros Hnone. unfold loadAll, dispatch, loadTemplatesEffect,
    localStorage_getItem. cbn [fst snd world].
  rewrite Hnone, JSON_parse_brackets. reflexivity.
Qed.

Lemma loadAll_corrupt (w : World) (text : string) :
  localStorage w !! storageKey = Some text -> JSON_parse text = None ->
  loadAll w = [].
Proof.
  intros Htext Hparse. unfold loadAll, dispatch, loadTemplatesEffect,
    localStorage_getItem. cbn [fst snd world]. rewrite Htext.
  destruct (String.eqb text "").
  - rewrite JSON_parse_brackets. reflexivity.
  - rewrite Hparse. reflexivity.
Qed.

Lemma loadAll_stored (w : World) (ts : list Template.t) :
  localStorage w !! storageKey = Some (JSON_stringify ts) ->
  loadAll w = JSON_template <$> ts.
Proof.
  intros Htext. unfold loadAll, dispatch, loadTemplatesEffect,
    localStorage_getItem. cbn [fst snd world]. rewrite Htext.
  destruct (String.eqb_spec (JSON_stringify ts) "") as [Heq|_].
  - pose proof (JSON_roundtrip ts) as Hrt.
    rewrite Heq, JSON_parse_empty in Hrt. discriminate.
  - rewrite JSON_roundtrip. reflexivity.
Qed.

(** C9.  [loadAll()] answers the empty list when nothing is stored and
    when the stored text does not parse; when the stored text is a
    written template list it answers that list (with NaN read back as
    null, so the very list when no layer property is NaN).  The effect is
    a total function: no outcome is an error. *)
Theorem load_all_or_empty (w : World) :
  (localStorage w !! storageKey = None -> loadAll w = []) /\
  (forall text : string,
      localStorage w !! storageKey = Some text -> JSON_parse text = None ->
      loadAll w = []) /\
  (forall ts : list Template.t,
      localStorage w !! storageKey = Some (JSON_stringify ts) ->
      loadAll w = JSON_template <$> ts /\
      (Forall (fun t => finite_layers (Template.layers t)) ts ->
       loadAll w = ts)).
Proof.
  split; [apply loadAll_absent|]. split; [apply loadAll_corrupt|].
  intros ts Hts. rewrite (loadAll_stored w ts Hts).
  split; [reflexivity | apply JSON_templates_finite].
Qed.

Lemma saveTemplate_run (name : string) (s : AppState) (w : World) :
  name <> "" ->
  dispatch (saveTemplate (Some name)) (s, w)
  = (reduce s (SetTemplates (templates s ++ [snapshot name s])),
     mkWorld (dragInfo w)
       (<[storageKey := JSON_stringify (templates s ++ [snapshot name s])]>
          (localStorage w))).
Proof.
  intros Hname. unfold dispatch, saveTemplate. cbn [fst snd].
  destruct (String.eqb_spec name ""); [contradiction|]. reflexivity.
Qed.

Lemma deleteTemplate_run (name : string) (s : AppState) (w : World) :
  let kept :=
    List.filter (fun t => negb (String.eqb (Template.name t) name))
      (templates s) in
  dispatch (deleteTemplate name) (s, w)
  = (reduce s (SetTemplates kept),
     mkWorld (dragInfo w)
       (<[storageKey := JSON_stringify kept]> (localStorage w))).
Proof. reflexivity. Qed.

Lemma kept_elem (name : string) (ts : list Template.t) (t : Template.t) :
  t ∈ List.filter (fun t => negb (String.eqb (Template.name t) name)) ts
  <-> t ∈ ts /\ Template.name t <> name.
Proof.
  rewrite !list_elem_of_In, filter_In, negb_true_iff.
  split; intros [Hin Hname]; (split; [exact Hin|]).
  - intros Heq. apply String.eqb_eq in Heq. congruence.
  - apply String.eqb_neq. exact Hname.
Qed.

Lemma kept_sublist (name : string) (ts : list Template.t) :
  sublist
    (List.filter (fun t => negb (String.eqb (Template.name t) name)) ts) ts.
Proof.
  induction ts as [|t ts IH]; simpl; [constructor|].
  destruct (negb (String.eqb (Template.name t) name)); constructor; exact IH.
Qed.

Lemma loaded_names (name : string) (ts : list Template.t) :
  Forall (fun t => Template.name t <> name) ts ->
  Forall (fun t => Template.name t <> name) (JSON_template <$> ts).
Proof.
  intros H. apply Forall_fmap. eapply Forall_impl; [exact H|].
  intros t Ht. exact Ht.
Qed.


Lemma loadTemplate_run (template : Template.t) (s0 : AppState) (w : World) :
  dispatch (loadTemplate template) (s0, w)
  = (mkState (Template.canvasSize template)
       (Template.backgroundColor template) (backgroundImage s0)
       (Template.borderOptions template) (Template.dateOptions template)
       (Template.layers template) None (imageObjects s0) (templates s0),
     w).
Proof. destruct w; reflexivity. Qed.

Lemma saved_template_loaded (name : string) (s : AppState) (w : World) :
  name <> "" ->
  last (loadAll (dispatch (saveTemplate (Some name)) (s, w)).2)
  = Some (JSON_template (snapshot name s)).
Proof.
  intros Hname. rewrite (saveTemplate_run name s w Hname). cbn [snd].
  erewrite loadAll_stored by (cbn [localStorage]; apply lookup_insert_eq).
  rewrite fmap_app. apply last_snoc.
Qed.

(** C1, as amended.  Saving the live state under a name, loading the
    stored list and applying the template just saved gives back the canvas
    size, the background colour, the border options, the date options and
    the layers of the saved state (no layer property being NaN), and no
    selection.  The background image is not part of a template: applying
    leaves the background image of the state it is applied to. *)
Theorem template_round_trip (name : string) (s s0 : AppState) (w : World) :
  name <> "" ->
  finite_layers (layers s) ->
  let stored := (dispatch (saveTemplate (Some name)) (s, w)).2 in
  exists template : Template.t,
    last (loadAll stored) = Some template /\
    Template.name template = name /\
    let s' := (dispatch (loadTemplate template) (s0, stored)).1 in
    canvasSize s' = canvasSize s /\
    backgroundColor s' = backgroundColor s /\
    borderOptions s' = borderOptions s /\
    dateOptions s' = dateOptions s /\
    layers s' = layers s /\
    selectedLayerIndex s' = None /\
    backgroundImage s' = backgroundImage s0.
Proof.
  intros Hname Hfin. cbv zeta. exists (snapshot name s).
  rewrite (saved_template_loaded name s w Hname).
  rewrite JSON_template_finite by exact Hfin.
  split; [reflexivity|]. split; [reflexivity|].
  rewrite loadTemplate_run. repeat split; reflexivity.
Qed.

(** ** Further properties of the code *)

(** *** Pointer handlers *)

(** X1.  Pointer-down changes the selection and the drag record only: the
    scene, the cache, the templates and the storage are as before.  When
    it selects index [i], that index is in range and the drag record holds
    [i] and the pointer's offset from that layer's position; when it
    selects nothing the drag record is as before. *)
Theorem pointer_down_effect (pos : Pos) (s : AppState) (w : World) :
  let after := dispatch (handleMouseDown pos) (s, w) in
  scene after.1 = scene s /\
  imageObjects after.1 = imageObjects s /\
  templates after.1 = templates s /\
  localStorage after.2 = localStorage w /\
  match selectedLayerIndex after.1 with
  | Some i =>
      (i < length (layers s))%nat /\
      dragInfo after.2
      = mkDragInfo true (Some i) (pos_x pos - layerNum s i "x")%js
          (pos_y pos - layerNum s i "y")%js
  | None => dragInfo after.2 = dragInfo w
  end.
Proof.
  cbv zeta. destruct (handleMouseDown_cases pos s) as [Hall | [i Htop]].
  - rewrite handleMouseDown_miss by exact Hall. simpl.
    repeat split; reflexivity.
  - rewrite (handleMouseDown_hit pos s w i Htop). simpl.
    repeat split; try reflexivity.
    destruct Htop as [(a & Ha & _) _]. eapply lookup_lt_Some, Ha.
Qed.

(** X2.  A pointer-move changes nothing unless a drag is on and a layer is
    selected; after a pointer-up, a pointer-move changes nothing. *)
Theorem pointer_move_idle (pos : Pos) (s : AppState) (w : World) :
  (isDragging (dragInfo w) = false ->
   dispatch (handleMouseMove pos) (s, w) = (s, w)) /\
  (selectedLayerIndex s = None ->
   dispatch (handleMouseMove pos) (s, w) = (s, w)) /\
  dispatch (handleMouseMove pos) (dispatch handleMouseUp (s, w))
  = dispatch handleMouseUp (s, w) /\
  (dispatch handleMouseUp (s, w)).1 = s.
Proof.
  split; [|split; [|split]].
  - intros Hidle. unfold dispatch, handleMouseMove. cbn [fst snd world].
    rewrite Hidle. reflexivity.
  - intros Hsel. unfold dispatch, handleMouseMove, handleLayerPropChange,
      andThen. cbn [fst snd world]. rewrite Hsel.
    destruct (negb (isDragging (dragInfo w))
              || is_null (targetIndex (dragInfo w))); reflexivity.
  - reflexivity.
  - reflexivity.
Qed.



Lemma maps_commute (k1 k2 : string) (v1 v2 : JSValue) (ls : list Layer)
  (i : nat) :
  k1 <> k2 ->
  JSArray.map
    (fun layer index =>
       if Nat.eqb index i then <[k2 := v2]> layer else layer)
    (JSArray.map
       (fun layer index =>
          if Nat.eqb index i then <[k1 := v1]> layer else layer) ls)
  = JSArray.map
      (fun layer index =>
         if Nat.eqb index i then <[k1 := v1]> layer else layer)
      (JSArray.map
         (fun layer index =>
            if Nat.eqb index i then <[k2 := v2]> layer else layer) ls).
Proof.
  intros Hne. apply list_eq. intros j.
  rewrite !map_selected_lookup. destruct (ls !! j) as [layer|]; simpl;
    [|reflexivity].
  destruct (Nat.eqb j i); [|reflexivity].
  f_equal. apply insert_insert_ne. congruence.
Qed.

(** X5.  Two property changes delivered as two events both take effect, and
    for different keys their order does not matter. *)
Theorem prop_changes_compose (k1 k2 : string) (v1 v2 : JSValue)
  (s : AppState) (w : World) (i : nat) (layer : Layer) :
  selectedLayerIndex s = Some i ->
  layers s !! i = Some layer ->
  k1 <> k2 ->
  let one := dispatch (handleLayerPropChange k1 v1) (s, w) in
  let both := dispatch (handleLayerPropChange k2 v2) one in
  (exists layer' : Layer,
      layers both.1 !! i = Some layer' /\
      layer' !! k1 = Some v1 /\ layer' !! k2 = Some v2 /\
      forall k : string, k <> k1 -> k <> k2 -> layer' !! k = layer !! k) /\
  both
  = dispatch (handleLayerPropChange k1 v1)
      (dispatch (handleLayerPropChange k2 v2) (s, w)).
Proof.
  intros Hsel Hl Hne. cbv zeta.
  rewrite (handleLayerPropChange_layers k1 v1 s w i Hsel).
  rewrite (handleLayerPropChange_layers k2 v2 s w i Hsel).
  rewrite !(handleLayerPropChange_layers _ _ _ w i) by exact Hsel.
  simpl. split.
  - exists (<[k2 := v2]> (<[k1 := v1]> layer)).
    rewrite !map_selected_lookup, Hl, Nat.eqb_refl. simpl.
    split; [reflexivity|]. split; [|split].
    + rewrite lookup_insert_ne by congruence. apply lookup_insert_eq.
    + apply lookup_insert_eq.
    + intros k H1 H2. rewrite !lookup_insert_ne by congruence. reflexivity.
  - unfold reduce. simpl. rewrite (maps_commute k1 k2 v1 v2) by exact Hne.
    reflexivity.
Qed.

(** *** Adding layers *)

Lemma centre_in_box (x w : Q) :
  (0 <= w)%Q -> (x - w / 2 <= x /\ x <= x + w / 2)%Q.
Proof.
  intros Hw. assert (w / 2 == w * (1 # 2))%Q as -> by field.
  split; lra.
Qed.

Lemma commit_append (newLayer : Layer) (s : AppState) :
  commit [LayersUpdater (appendAndSelect newLayer)] s
  = mkState (canvasSize s) (backgroundColor s) (backgroundImage s)
      (borderOptions s) (dateOptions s) (layers s ++ [newLayer])
      (Some (length (layers s))) (imageObjects s) (templates s).
Proof.
  unfold commit, appendAndSelect. simpl.
  rewrite length_app. simpl.
  replace (length (layers s) + 1 - 1)%nat with (length (layers s)) by lia.
  reflexivity.
Qed.


(** X7.  A text layer just added can be grabbed at the centre of the canvas:
    it is last in the list, and its box, whatever the measured width of
    its text, contains its own position. *)
Theorem added_text_layer_is_grabbed (s : AppState) (w : World) (mw : Q) :
  measureText (fontOf (newTextLayer (canvasSize s))) "새 텍스트" = Some mw ->
  (0 <= mw)%Q ->
  let s' := commit (addLayer_text s) s in
  let centre :=
    mkPos (Some (CanvasSize.width (canvasSize s) / 2)%Q)
      (Some (CanvasSize.height (canvasSize s) / 2)%Q) in
  selectedLayerIndex (dispatch (handleMouseDown centre) (s', w)).1
  = Some (length (layers s)).
Proof.
  intros Hmw Hpos. cbv zeta. unfold addLayer_text. rewrite commit_append.
  erewrite handleMouseDown_hit; [reflexivity|].
  split.
  - exists (newTextLayer (canvasSize s)). simpl. split.
    { rewrite lookup_app_r by lia. rewrite Nat.sub_diag. reflexivity. }
    apply hits_in_box.
    exists (CanvasSize.width (canvasSize s) / 2)%Q,
      (CanvasSize.height (canvasSize s) / 2)%Q,
      (CanvasSize.width (canvasSize s) / 2)%Q,
      (CanvasSize.height (canvasSize s) / 2)%Q, mw, 48%Q.
    split; [reflexivity|]. split; [reflexivity|].
    split; [reflexivity|]. split; [reflexivity|]. split.
    { unfold box_size.
      replace (type_is (newTextLayer (canvasSize s)) "text") with true
        by reflexivity.
      replace (toStr (newTextLayer (canvasSize s) !! "content"))
        with "새 텍스트" by reflexivity.
      rewrite Hmw. reflexivity. }
    split; apply centre_in_box; [exact Hpos | discriminate].
  - intros j b Hj Hb. simpl in Hb.
    apply lookup_lt_Some in Hb. rewrite length_app in Hb. simpl in Hb. lia.
Qed.


(** X9.  The image layer is appended to the layers the component has when the
    image has loaded, not to those of the render in which the button was
    clicked, and it is selected; only its position comes from the canvas
    size of that earlier render. *)
Theorem image_layer_loaded (clicked now : AppState) (imgSrc : string)
  (iw ih : Q) :
  let s' := commit (addLayer_image_onload clicked imgSrc iw ih) now in
  let layer := newImageLayer (canvasSize clicked) imgSrc iw ih in
  layers s' = layers now ++ [layer] /\
  selectedLayerIndex s' = Some (length (layers now)) /\
  selectedLayer s' = Some layer /\
  canvasSize s' = canvasSize now /\
  backgroundColor s' = backgroundColor now /\
  backgroundImage s' = backgroundImage now /\
  imageObjects s' = imageObjects now /\
  templates s' = templates now.
Proof.
  cbv zeta. unfold addLayer_image_onload. rewrite commit_append.
  unfold selectedLayer. simpl.
  split; [reflexivity|]. split; [reflexivity|]. split.
  { rewrite lookup_app_r by lia. rewrite Nat.sub_diag. reflexivity. }
  repeat split; reflexivity.
Qed.

(** *** Decoding images *)

Lemma imageRequests_elem (s : AppState) (k : string) :
  k ∈ imageRequests s <->
  imageObjects s !! k = None /\
  ((exists layer : Layer,
       layer ∈ layers s /\ type_is layer "image" = true /\
       truthy (layer !! "src") = true /\ toStr (layer !! "src") = k)
   \/ (backgroundImage s = Some k /\ k <> "")).
Proof.
  unfold imageRequests. rewrite elem_of_app, !list_elem_of_In, in_flat_map.
  split.
  - intros [(layer & Hin & Hk) | Hbg].
    + apply filter_In in Hin as [Hin Himage].
      destruct (truthy (layer !! "src")) eqn:Htruthy; simpl in Hk;
        [|contradiction].
      destruct (imageObjects s !! toStr (layer !! "src")) eqn:Hcache;
        simpl in Hk; [contradiction|].
      destruct Hk as [<-|[]]. split; [exact Hcache|]. left.
      exists layer. rewrite list_elem_of_In. auto.
    + destruct (backgroundImage s) as [src|]; [|inversion Hbg].
      destruct (String.eqb_spec src ""); simpl in Hbg; [inversion Hbg|].
      destruct (imageObjects s !! src) eqn:Hcache; simpl in Hbg;
        [inversion Hbg|].
      destruct Hbg as [<-|[]]. split; [exact Hcache|]. right. auto.
  - intros [Hcache [(layer & Hin & Himage & Htruthy & <-) | [Hbg Hne]]].
    + left. exists layer. split.
      * apply filter_In. rewrite <- list_elem_of_In. auto.
      * rewrite Htruthy, Hcache. simpl. auto.
    + right. rewrite Hbg. destruct (String.eqb_spec k ""); [contradiction|].
      rewrite Hcache. simpl. auto.
Qed.


Lemma onImageDecoded_commit (k : string) (s : AppState) :
  commit (onImageDecoded k) s
  = mkState (canvasSize s) (backgroundColor s) (backgroundImage s)
      (borderOptions s) (dateOptions s) (layers s) (selectedLayerIndex s)
      (<[k := mkImage k]> (imageObjects s)) (templates s).
Proof. reflexivity. Qed.

(** X11.  When a requested image has loaded it is stored under its source and
    every other cache entry stays; the scene is as before; the source is
    not requested again, and nothing is requested that was not requested
    before. *)
Theorem image_decoded_cached (k : string) (s : AppState) :
  let s' := commit (onImageDecoded k) s in
  imageObjects s' !! k = Some (mkImage k) /\
  (forall k' : string, k' <> k -> imageObjects s' !! k' = imageObjects s !! k') /\
  scene s' = scene s /\
  selectedLayerIndex s' = selectedLayerIndex s /\
  (k ∉ imageRequests s') /\
  (forall k' : string, k' ∈ imageRequests s' -> k' ∈ imageRequests s).
Proof.
  cbv zeta. rewrite onImageDecoded_commit.
  split; [apply lookup_insert_eq|]. split.
  { intros k' Hne. apply lookup_insert_ne. congruence. }
  split; [reflexivity|]. split; [reflexivity|]. split.
  - intros Hin. apply imageRequests_elem in Hin as [Hnone _].
    simpl in Hnone. rewrite lookup_insert_eq in Hnone. discriminate.
  - intros k' Hin. apply imageRequests_elem in Hin as [Hnone Hwhy].
    simpl in Hnone, Hwhy. apply imageRequests_elem. split; [|exact Hwhy].
    destruct (decide (k = k')) as [->|Hne].
    + rewrite lookup_insert_eq in Hnone. discriminate.
    + rewrite lookup_insert_ne in Hnone by exact Hne. exact Hnone.
Qed.


(** *** Export *)

Lemma layers_trace_cache (s1 s2 : AppState) (ls : list Layer) (i : nat) :
  imageObjects s1 = imageObjects s2 ->
  layers_trace s1 i ls = layers_trace s2 i ls.
Proof.
  intros Heq. revert i. induction ls as [|layer ls IH]; intros i; simpl.
  - reflexivity.
  - rewrite IH. unfold layer_calls. rewrite Heq. reflexivity.
Qed.

(** X13.  [handleDownload] clears the selection and leaves the scene as it is;
    the next run of the effect then paints what it painted before except
    the selection outline, of which it paints nothing. *)
Theorem download_hides_outline (s : AppState) (w : World) (today : JSDate)
  (c : Context2D) :
  let after := dispatch handleDownload (s, w) in
  after.2 = w /\
  scene after.1 = scene s /\
  selectedLayerIndex after.1 = None /\
  scene_trace s today
  = scene_trace after.1 today ++ tagged PSelection (selection_calls s) /\
  (forall e : Painted, e ∈ painted after.1 today c -> phase e <> PSelection).
Proof.
  cbv zeta. unfold dispatch, handleDownload. simpl.
  split; [reflexivity|]. split; [reflexivity|]. split; [reflexivity|].
  set (s' := mkState _ _ _ _ _ _ None _ _).
  assert (scene_trace s today
          = scene_trace s' today ++ tagged PSelection (selection_calls s))
    as Htrace.
  { unfold scene_trace. rewrite <- !app_assoc.
    rewrite (layers_trace_cache s' s) by reflexivity. reflexivity. }
  split; [exact Htrace|].
  intros e He Hphase.
  destruct (painted_shown s' today c) as [_ Hshown].
  assert ((PSelection, call e) ∈ scene_trace s' today) as Hin.
  { rewrite <- Hshown, <- Hphase. apply (list_elem_of_fmap_2 shown), He. }
  unfold scene_trace in Hin. rewrite !elem_of_app in Hin.
  destruct Hin as [H|[H|[H|[H|[H|H]]]]];
    try (apply tagged_elem in H as [Hp _]; discriminate).
  - pose proof (layers_trace_phase s' (layers s') 0) as Hall.
    rewrite Forall_forall in Hall.
    destruct (Hall _ H) as (j & Hj & _). discriminate.
  - apply tagged_elem in H as [_ Hk]. inversion Hk.
Qed.

(** *** What holds in every state of a session *)

Lemma reduce_imageObjects (s : AppState) (a : SetState) :
  imageObjects (reduce s a) = imageObjects s.
Proof. destruct a; reflexivity. Qed.

Lemma fold_reduce_imageObjects (q : list SetState) (s : AppState) :
  imageObjects (fold_left reduce q s) = imageObjects s.
Proof.
  revert s. induction q as [|a q IH]; intros s; simpl; [reflexivity|].
  rewrite IH. apply reduce_imageObjects.
Qed.

Lemma dispatch_imageObjects (h : AppState -> Handler)
  (sw : AppState * World) :
  imageObjects (dispatch h sw).1 = imageObjects sw.1.
Proof. unfold dispatch. simpl. apply fold_reduce_imageObjects. Qed.

Lemma step_imageObjects (e : Event) (sw : AppState * World) :
  imageObjects (step e sw).1
  = match e with
    | ImageDecoded src => <[src := mkImage src]> (imageObjects sw.1)
    | _ => imageObjects sw.1
    end.
Proof.
  destruct e; unfold step; try apply dispatch_imageObjects; reflexivity.
Qed.

(** X14.  The cache only grows, and each image in it is stored under its own
    source: in every state of a session the cache is keyed by source, and
    no event removes or replaces an entry. *)
Theorem cache_only_grows (sw : AppState * World) :
  reachable sw ->
  cache_keyed sw.1 /\
  forall (e : Event) (k : string) (img : HTMLImageElement),
    imageObjects sw.1 !! k = Some img ->
    imageObjects (step e sw).1 !! k = Some img.
Proof.
  intros Hreach.
  assert (cache_keyed sw.1) as Hkeyed.
  { induction Hreach as [items | e sw Hreach IH].
    - intros k img. rewrite dispatch_imageObjects. simpl.
      rewrite lookup_empty. discriminate.
    - intros k img. rewrite step_imageObjects.
      destruct e; try apply IH.
      destruct (decide (src = k)) as [->|Hne].
      + rewrite lookup_insert_eq. intros [= <-]. reflexivity.
      + rewrite lookup_insert_ne by exact Hne. apply IH. }
  split; [exact Hkeyed|].
  intros e k img Hk. rewrite step_imageObjects.
  destruct e; try exact Hk.
  destruct (decide (src = k)) as [->|Hne].
  - rewrite lookup_insert_eq. specialize (Hkeyed k img Hk).
    destruct img as [src']. simpl in Hkeyed. subst src'. reflexivity.
  - rewrite lookup_insert_ne by exact Hne. exact Hk.
Qed.

Lemma handleMouseMove_shape (pos : Pos) (s : AppState) (w : World) :
  selectedLayerIndex (dispatch (handleMouseMove pos) (s, w)).1
  = selectedLayerIndex s /\
  length (layers (dispatch (handleMouseMove pos) (s, w)).1)
  = length (layers s).
Proof.
  unfold dispatch, handleMouseMove, handleLayerPropChange, andThen.
  cbn [fst snd world].
  destruct (negb (isDragging (dragInfo w))
            || is_null (targetIndex (dragInfo w))); [split; reflexivity|].
  destruct (selectedLayerIndex s) as [i|] eqn:Hsel; simpl.
  - split; [exact Hsel | apply map_from_length].
  - split; [exact Hsel | reflexivity].
Qed.

Lemma step_selection_in_range (e : Event) (sw : AppState * World) :
  selection_in_range sw.1 -> selection_in_range (step e sw).1.
Proof.
  destruct sw as [s w]. intros Hinv. unfold selection_in_range in *.
  cbn [fst] in Hinv.
  destruct e; unfold step; cbn [fst snd].
  - destruct (handleMouseDown_cases pos s) as [Hall | [i Htop]].
    + rewrite handleMouseDown_miss by exact Hall. simpl. discriminate.
    + rewrite (handleMouseDown_hit pos s w i Htop). simpl.
      intros j [= <-]. destruct Htop as [(a & Ha & _) _].
      eapply lookup_lt_Some, Ha.
  - destruct (handleMouseMove_shape pos s w) as [-> ->]. exact Hinv.
  - exact Hinv.
  - destruct (selectedLayerIndex s) as [i|] eqn:Hsel.
    + rewrite (handleLayerPropChange_layers prop value s w i Hsel). simpl.
      intros j Hj. unfold JSArray.map. rewrite map_from_length.
      apply Hinv. congruence.
    + rewrite handleLayerPropChange_none by exact Hsel. simpl.
      rewrite Hsel. discriminate.
  - unfold dispatch, deleteSelectedLayer. cbn [fst snd].
    destruct (selectedLayerIndex s) as [i|] eqn:Hsel; simpl.
    + discriminate.
    + rewrite Hsel. discriminate.
  - unfold addLayer_text. rewrite commit_append. simpl.
    intros j [= <-]. rewrite length_app. simpl. lia.
  - unfold addLayer_image_onload. rewrite commit_append. simpl.
    intros j [= <-]. rewrite length_app. simpl. lia.
  - exact Hinv.
  - simpl. discriminate.
  - unfold dispatch, saveTemplate. cbn [fst snd].
    destruct answer as [name|]; [|exact Hinv].
    destruct (String.eqb name ""); exact Hinv.
  - simpl. discriminate.
  - exact Hinv.
  - exact Hinv.
  - destruct file; exact Hinv.
  - exact Hinv.
  - exact Hinv.
  - exact Hinv.
  - exact Hinv.
  - exact Hinv.
Qed.

Lemma mount_state (s0 : AppState) (w : World) :
  exists ts : list Template.t,
    dispatch loadTemplatesEffect (s0, w) = (reduce s0 (SetTemplates ts), w).
Proof.
  unfold dispatch, loadTemplatesEffect. cbn [fst snd].
  match goal with
  | |- context [JSON_parse ?t] => destruct (JSON_parse t) as [ts|]
  end; eexists; reflexivity.
Qed.

(** X15.  The selection is never a dangling index: in every state of a
    session, a selected index holds a layer. *)
Theorem selection_never_dangles (sw : AppState * World) :
  reachable sw ->
  selection_in_range sw.1 /\
  (forall i : nat,
      selectedLayerIndex sw.1 = Some i -> is_Some (selectedLayer sw.1)).
Proof.
  intros Hreach.
  assert (selection_in_range sw.1) as Hinv.
  { induction Hreach as [items | e sw Hreach IH].
    - destruct (mount_state initialState (mkWorld initialDragInfo items))
        as [ts ->].
      intros i Hi. simpl in *. simplify_eq. lia.
    - apply step_selection_in_range, IH. }
  split; [exact Hinv|].
  intros i Hi. unfold selectedLayer. rewrite Hi.
  apply lookup_lt_is_Some_2, Hinv, Hi.
Qed.

(** *** Drawing *)

Lemma assign_prop_frame (k : string) (v : option JSValue) (c : Context2D) :
  lineDash (assign_prop k v c) = lineDash c /\
  saved (assign_prop k v c) = saved c /\
  marker (assign_prop k v c) = marker c /\
  log (assign_prop k v c) = log c.
Proof. destruct v; repeat split; reflexivity. Qed.

Lemma assign_prop_lookup_ne (k k' : string) (v : option JSValue)
  (c : Context2D) :
  k <> k' -> props (assign_prop k v c) !! k' = props c !! k'.
Proof.
  intros Hne. destruct v; [apply lookup_insert_ne, Hne | reflexivity].
Qed.

Lemma log_restore (c : Context2D) : log (restore c) = log c.
Proof. unfold restore. destruct (saved c) as [|[p d] rest]; reflexivity. Qed.

Ltac frame :=
  repeat first
    [ rewrite (proj1 (assign_prop_frame _ _ _))
    | rewrite (proj1 (proj2 (assign_prop_frame _ _ _)))
    | rewrite (proj1 (proj2 (proj2 (assign_prop_frame _ _ _))))
    | rewrite (proj2 (proj2 (proj2 (assign_prop_frame _ _ _))))
    | progress unfold skip
    | progress cbn [props lineDash saved marker log assign paint save] ].

Lemma drawText_restores (layer : Layer) (c : Context2D) :
  props (drawText layer c) = props c /\
  lineDash (drawText layer c) = lineDash c /\
  saved (drawText layer c) = saved c /\
  marker (drawText layer c) = marker c.
Proof.
  unfold drawText, andThen.
  assert (forall X : Context2D, saved X = (props c, lineDash c) :: saved c ->
            marker X = marker c ->
            props (restore X) = props c /\ lineDash (restore X) = lineDash c
            /\ saved (restore X) = saved c /\ marker (restore X) = marker c)
    as Hrestore.
  { intros X HX HM. unfold restore. rewrite HX. simpl. auto. }
  apply Hrestore;
    destruct (truthy (layer !! "shadowEnabled")),
      (num (layer !! "strokeWidth") >? JSNum.of_Z 0)%js;
    unfold andThen; frame; reflexivity.
Qed.

Lemma drawText_style (layer : Layer) (c : Context2D) :
  exists es : list Painted,
    log (drawText layer c) = log c ++ es /\
    Forall
      (fun e =>
         phase e = marker c /\
         style e !! "font" = Some (VStr (fontOf layer)) /\
         style e !! "textAlign" = Some (VStr "center") /\
         style e !! "textBaseline" = Some (VStr "middle") /\
         (forall v : JSValue,
             layer !! "color" = Some v -> style e !! "fillStyle" = Some v) /\
         (truthy (layer !! "shadowEnabled") = false ->
          same_shadow (style e) (props c)))
      es.
Proof.
  set (P := fun p : gmap string JSValue =>
              p !! "font" = Some (VStr (fontOf layer)) /\
              p !! "textAlign" = Some (VStr "center") /\
              p !! "textBaseline" = Some (VStr "middle") /\
              (forall v : JSValue,
                  layer !! "color" = Some v -> p !! "fillStyle" = Some v) /\
              (truthy (layer !! "shadowEnabled") = false ->
               same_shadow p (props c))).
  set (I := fun X : Context2D =>
              marker X = marker c /\ P (props X) /\
              exists es : list Painted,
                log X = log c ++ es /\
                Forall (fun e => phase e = marker c /\ P (style e)) es).
  assert (forall (k : PaintCall) (X : Context2D), I X -> I (paint k X))
    as Hpaint.
  { intros k X (Hm & HP & es & Hlog & Hes). split; [exact Hm|].
    split; [exact HP|].
    exists (es ++ [mkPainted (marker X) k (props X) (lineDash X)]).
    split; [simpl; rewrite Hlog, app_assoc; reflexivity|].
    apply Forall_app. split; [exact Hes|].
    constructor; [|constructor]. split; [exact Hm | exact HP]. }
  assert (forall (k : string) (v : option JSValue) (X : Context2D),
             k <> "font" -> k <> "textAlign" -> k <> "textBaseline" ->
             k <> "fillStyle" ->
             (k ∈ shadow_keys -> truthy (layer !! "shadowEnabled") = true) ->
             I X -> I (assign_prop k v X)) as Hassign.
  { intros k v X H1 H2 H3 H4 H5 (Hm & (P1 & P2 & P3 & P4 & P5) & es & Hlog & Hes).
    destruct (assign_prop_frame k v X) as (_ & _ & Hm' & Hlog').
    split; [congruence|]. split.
    - unfold P. rewrite !assign_prop_lookup_ne by assumption.
      split; [exact P1|]. split; [exact P2|]. split; [exact P3|].
      split; [exact P4|].
      intros Hoff k' Hk'. rewrite assign_prop_lookup_ne; [exact (P5 Hoff k' Hk')|].
      intros ->. specialize (H5 Hk'). congruence.
    - exists es. split; [congruence | exact Hes]. }
  assert (I (assign "textBaseline" (VStr "middle")
               (assign "textAlign" (VStr "center")
                  (assign_prop "fillStyle" (layer !! "color")
                     (assign "font" (VStr (fontOf layer)) (save c))))))
    as Hstart.
  { split; [destruct (layer !! "color"); reflexivity|]. split.
    - unfold P. cbn [props assign].
      split; [|split; [|split; [|split]]].
      + rewrite !lookup_insert_ne by discriminate.
        rewrite assign_prop_lookup_ne by discriminate.
        apply lookup_insert_eq.
      + rewrite lookup_insert_ne by discriminate. apply lookup_insert_eq.
      + apply lookup_insert_eq.
      + intros v Hv. rewrite !lookup_insert_ne by discriminate.
        rewrite Hv. apply lookup_insert_eq.
      + intros _ k Hk.
        assert (k <> "font" /\ k <> "textAlign" /\ k <> "textBaseline"
                /\ k <> "fillStyle") as (N1 & N2 & N3 & N4).
        { unfold shadow_keys in Hk.
          repeat (apply elem_of_cons in Hk as [->|Hk]);
            [repeat split; discriminate.. | inversion Hk]. }
        rewrite !lookup_insert_ne by congruence.
        rewrite assign_prop_lookup_ne by congruence.
        apply lookup_insert_ne. congruence.
    - exists []. rewrite app_nil_r.
      split; [destruct (layer !! "color"); reflexivity | constructor]. }
  assert (forall X : Context2D, I X ->
            exists es : list Painted,
              log X = log c ++ es /\
              Forall (fun e => phase e = marker c /\ P (style e)) es)
    as Hend.
  { intros X (_ & _ & H). exact H. }
  unfold drawText, andThen. rewrite log_restore.
  apply Hend, Hpaint.
  destruct (truthy (layer !! "shadowEnabled")) eqn:Hshadow,
    (num (layer !! "strokeWidth") >? JSNum.of_Z 0)%js;
    unfold andThen, skip;
    repeat first
      [ apply Hpaint
      | apply Hassign;
        [discriminate | discriminate | discriminate | discriminate
        | first [ intros _; reflexivity
                | intros Hk; unfold shadow_keys in Hk;
                  repeat (apply elem_of_cons in Hk as [Hk|Hk];
                          [discriminate Hk|]);
                  inversion Hk ]
        | ] ];
    exact Hstart.
Qed.



(** *** Shadows stay with their layer *)

Lemma same_shadow_refl (p : gmap string JSValue) : same_shadow p p.
Proof. intros k _. reflexivity. Qed.

Lemma same_shadow_trans (p q r : gmap string JSValue) :
  same_shadow p q -> same_shadow q r -> same_shadow p r.
Proof. intros H1 H2 k Hk. rewrite (H1 k Hk). apply H2, Hk. Qed.

Lemma shadow_confined_trans (s : AppState) (p q : gmap string JSValue)
  (e : Painted) :
  same_shadow p q -> shadow_confined s p e -> shadow_confined s q e.
Proof.
  intros Hpq [H|H]; [left; exact H | right].
  eapply same_shadow_trans; eassumption.
Qed.

Lemma not_shadow_key (k : string) :
  k ∉ shadow_keys -> forall k' : string, k' ∈ shadow_keys -> k <> k'.
Proof. intros Hk k' Hk' ->. contradiction. Qed.

Lemma confines_quiet (s : AppState) (op : CtxOp) :
  (forall c, same_shadow (props (op c)) (props c) /\ log (op c) = log c) ->
  confines s op.
Proof.
  intros H c. destruct (H c) as [Hp Hl]. split; [exact Hp|].
  exists []. rewrite Hl, app_nil_r. split; [reflexivity | constructor].
Qed.

Lemma confines_skip (s : AppState) : confines s skip.
Proof.
  apply confines_quiet. intros c. split; [apply same_shadow_refl|reflexivity].
Qed.

Lemma confines_enter (s : AppState) (p : Phase) : confines s (enter p).
Proof.
  apply confines_quiet. intros c. split; [apply same_shadow_refl|reflexivity].
Qed.

Lemma confines_setLineDash (s : AppState) (d : list Q) :
  confines s (setLineDash d).
Proof.
  apply confines_quiet. intros c. split; [apply same_shadow_refl|reflexivity].
Qed.

Lemma confines_assign (s : AppState) (k : string) (v : JSValue) :
  k ∉ shadow_keys -> confines s (assign k v).
Proof.
  intros Hk. apply confines_quiet. intros c. split; [|reflexivity].
  intros k' Hk'. apply lookup_insert_ne. apply not_shadow_key; assumption.
Qed.

Lemma confines_paint (s : AppState) (k : PaintCall) : confines s (paint k).
Proof.
  intros c. split; [apply same_shadow_refl|].
  exists [mkPainted (marker c) k (props c) (lineDash c)].
  split; [reflexivity|]. constructor; [|constructor].
  right. apply same_shadow_refl.
Qed.

Lemma confines_seq (s : AppState) (op1 op2 : CtxOp) :
  confines s op1 -> confines s op2 -> confines s (op1 ;> op2).
Proof.
  intros H1 H2 c. unfold andThen.
  destruct (H1 c) as (Hp1 & es1 & Hl1 & He1).
  destruct (H2 (op1 c)) as (Hp2 & es2 & Hl2 & He2).
  split; [eapply same_shadow_trans; eassumption|].
  exists (es1 ++ es2). split; [rewrite Hl2, Hl1, app_assoc; reflexivity|].
  apply Forall_app. split; [exact He1|].
  eapply Forall_impl; [exact He2|]. intros e.
  apply shadow_confined_trans, Hp1.
Qed.

Lemma confines_layer (s : AppState) (i : nat) (layer : Layer) :
  layers s !! i = Some layer ->
  confines s (enter (PLayer i) ;> paintLayer s layer).
Proof.
  intros Hl. unfold paintLayer.
  destruct (type_is layer "text") eqn:Htext.
  - intros c. unfold andThen.
    destruct (drawText_restores layer (enter (PLayer i) c)) as (Hp & _).
    destruct (drawText_style layer (enter (PLayer i) c))
      as (es & Hlog & Hes).
    split; [rewrite Hp; apply same_shadow_refl|].
    exists es. split; [exact Hlog|].
    eapply Forall_impl; [exact Hes|].
    intros e (Hphase & _ & _ & _ & _ & Hoff).
    destruct (truthy (layer !! "shadowEnabled")) eqn:Hshadow.
    + left. exists i, layer. repeat split; assumption.
    + right. apply Hoff. reflexivity.
  - apply confines_seq; [apply confines_enter|].
    destruct (type_is layer "image"); [|apply confines_skip].
    destruct (imageObjects s !! toStr (layer !! "src"));
      [apply confines_paint | apply confines_skip].
Qed.

Lemma confines_layers (s : AppState) (ls : list Layer) (i : nat) :
  (forall (j : nat) (layer : Layer),
      ls !! j = Some layer -> layers s !! (i + j)%nat = Some layer) ->
  confines s
    (forEach_from (fun layer i => enter (PLayer i) ;> paintLayer s layer) i ls).
Proof.
  revert i. induction ls as [|layer ls IH]; intros i Hls; simpl.
  - apply confines_skip.
  - apply confines_seq.
    + apply confines_layer. rewrite <- (Nat.add_0_r i). apply (Hls 0%nat).
      reflexivity.
    + apply IH. intros j l Hj.
      replace (S i + j)%nat with (i + S j)%nat by lia. apply Hls. exact Hj.
Qed.

Ltac not_shadow :=
  unfold shadow_keys; intros Hk;
  repeat (apply elem_of_cons in Hk as [Hk|Hk]; [discriminate Hk|]);
  inversion Hk.

Ltac confine :=
  repeat first
    [ apply confines_seq
    | apply confines_enter
    | apply confines_paint
    | apply confines_skip
    | apply confines_setLineDash
    | apply confines_assign; not_shadow ].

Lemma confines_render (s : AppState) (today : JSDate) :
  confines s (render s today).
Proof.
  unfold render. cbv zeta.
  apply confines_seq; [apply confines_enter|].
  apply confines_seq; [apply confines_paint|].
  apply confines_seq; [apply confines_enter|].
  apply confines_seq.
  { destruct (resolvedBackground s); confine. }
  apply confines_seq; [apply confines_enter|].
  apply confines_seq.
  { destruct (BorderOptions.enabled (borderOptions s)
              && (Some (BorderOptions.width (borderOptions s))
                  >? JSNum.of_Z 0)%js); confine. }
  apply confines_seq; [apply confines_enter|].
  apply confines_seq.
  { destruct (DateOptions.enabled (dateOptions s)); confine. }
  apply confines_seq.
  { apply confines_layers. intros j layer Hj. exact Hj. }
  apply confines_seq; [apply confines_enter|].
  destruct (selectedLayer s) as [layer|]; [|apply confines_skip].
  unfold drawSelection.
  destruct (type_is layer "text"); confine.
Qed.

(** X16.  The shadow of a text layer stays with that layer: every paint call
    of the effect, other than the calls of a text layer whose shadow is
    enabled, is made with the shadow settings the context had before the
    effect ran, and the effect leaves those settings as they were. *)
Theorem shadows_stay_with_their_layer (s : AppState) (today : JSDate)
  (c : Context2D) :
  same_shadow (props (render s today c)) (props c) /\
  forall e : Painted,
    e ∈ painted s today c ->
    (exists (j : nat) (layer : Layer),
        phase e = PLayer j /\ layers s !! j = Some layer /\ shadowed layer)
    \/ same_shadow (style e) (props c).
Proof.
  destruct (confines_render s today c) as (Hp & es & Hlog & Hes).
  split; [exact Hp|].
  unfold painted. rewrite Hlog, drop_app_length.
  intros e He. rewrite Forall_forall in Hes. exact (Hes e He).
Qed.

(** X17.  The outline of the selected layer is the rectangle pointer-down
    tests, grown by 10 on every side for a text layer and by 5 otherwise;
    it is stroked dashed (6 on, 3 off), 2 wide, and the dash is reset
    afterwards. *)
Theorem selection_outline_is_padded_hit_rect (layer : Layer)
  (c : Context2D) :
  let pad := if type_is layer "text" then 10%Z else 5%Z in
  let rect := hitRect layer in
  exists e : Painted,
    log (drawSelection layer c) = log c ++ [e] /\
    call e
    = StrokeRect (rect_x rect - JSNum.of_Z pad)%js
        (rect_y rect - JSNum.of_Z pad)%js
        (rect_width rect + JSNum.of_Z (2 * pad))%js
        (rect_height rect + JSNum.of_Z (2 * pad))%js /\
    dash e = [6; 3]%Q /\
    style e !! "strokeStyle" = Some (VStr "rgba(0, 123, 255, 0.9)") /\
    style e !! "lineWidth" = Some (VNum (JSNum.of_Z 2)) /\
    lineDash (drawSelection layer c) = [].
Proof.
  cbv zeta. unfold drawSelection, hitRect, andThen.
  destruct (type_is layer "text"); unfold andThen;
    (eexists; split; [reflexivity|]);
    cbn [call dash style lineDash paint setLineDash assign props
           rect_x rect_y rect_width rect_height];
    repeat split; try reflexivity.
  all: rewrite ?lookup_insert_ne by discriminate; apply lookup_insert_eq.
Qed.

(** *** Only the outline is dashed *)

Lemma plain_quiet (op : CtxOp) :
  (forall c,
      lineDash (op c) = lineDash c /\ marker (op c) = marker c
      /\ log (op c) = log c) ->
  plain op.
Proof.
  intros H c Hm. destruct (H c) as (Hd & Hm' & Hl).
  split; [exact Hd|]. split; [rewrite Hm'; exact Hm|].
  exists []. rewrite Hl, app_nil_r. split; [reflexivity | constructor].
Qed.

Lemma plain_skip : plain skip.
Proof. apply plain_quiet. intros c. repeat split. Qed.

Lemma plain_assign (k : string) (v : JSValue) : plain (assign k v).
Proof. apply plain_quiet. intros c. repeat split. Qed.

Lemma plain_enter (p : Phase) : p <> PSelection -> plain (enter p).
Proof.
  intros Hp c _. split; [reflexivity|]. split; [exact Hp|].
  exists []. rewrite app_nil_r. split; [reflexivity | constructor].
Qed.

Lemma plain_paint (k : PaintCall) : plain (paint k).
Proof.
  intros c Hm. split; [reflexivity|]. split; [exact Hm|].
  exists [mkPainted (marker c) k (props c) (lineDash c)].
  split; [reflexivity|]. constructor; [|constructor].
  split; [exact Hm | reflexivity].
Qed.

Lemma plain_seq (op1 op2 : CtxOp) :
  plain op1 -> plain op2 -> plain (op1 ;> op2).
Proof.
  intros H1 H2 c Hm. unfold andThen.
  destruct (H1 c Hm) as (Hd1 & Hm1 & es1 & Hl1 & He1).
  destruct (H2 (op1 c) Hm1) as (Hd2 & Hm2 & es2 & Hl2 & He2).
  split; [congruence|]. split; [exact Hm2|].
  exists (es1 ++ es2). split; [rewrite Hl2, Hl1, app_assoc; reflexivity|].
  apply Forall_app. split; [exact He1|].
  eapply Forall_impl; [exact He2|]. intros e [Hp Hd].
  split; [exact Hp | congruence].
Qed.

Lemma drawText_dash (layer : Layer) (c : Context2D) :
  exists es : list Painted,
    log (drawText layer c) = log c ++ es /\
    Forall (fun e => phase e = marker c /\ dash e = lineDash c) es.
Proof.
  set (I := fun X : Context2D =>
              marker X = marker c /\ lineDash X = lineDash c /\
              exists es : list Painted,
                log X = log c ++ es /\
                Forall (fun e => phase e = marker c /\ dash e = lineDash c)
                  es).
  assert (forall (k : PaintCall) (X : Context2D), I X -> I (paint k X))
    as Hpaint.
  { intros k X (Hm & Hd & es & Hlog & Hes).
    split; [exact Hm|]. split; [exact Hd|].
    exists (es ++ [mkPainted (marker X) k (props X) (lineDash X)]).
    split; [simpl; rewrite Hlog, app_assoc; reflexivity|].
    apply Forall_app. split; [exact Hes|].
    constructor; [|constructor]. split; [exact Hm | exact Hd]. }
  assert (forall (k : string) (v : option JSValue) (X : Context2D),
             I X -> I (assign_prop k v X)) as Hassign.
  { intros k v X (Hm & Hd & es & Hlog & Hes).
    destruct (assign_prop_frame k v X) as (Hd' & _ & Hm' & Hlog').
    split; [congruence|]. split; [congruence|].
    exists es. split; [congruence | exact Hes]. }
  assert (forall (k : string) (v : JSValue) (X : Context2D),
             I X -> I (assign k v X)) as Hset.
  { intros k v X. exact (Hassign k (Some v) X). }
  assert (I (save c)) as Hstart.
  { split; [reflexivity|]. split; [reflexivity|].
    exists []. rewrite app_nil_r. split; [reflexivity | constructor]. }
  unfold drawText, andThen. rewrite log_restore.
  refine (proj2 (proj2 (Hpaint _ _ _))).
  destruct (truthy (layer !! "shadowEnabled")),
    (num (layer !! "strokeWidth") >? JSNum.of_Z 0)%js;
    unfold andThen, skip;
    repeat first [apply Hpaint | apply Hassign | apply Hset]; exact Hstart.
Qed.

(** X18.  A text layer is drawn between [save] and [restore]: the context's
    properties, its dash pattern and its stack of saved states are
    afterwards what they were, and every call the layer makes is made
    under the layer's phase, centred on the position it is given. *)
Theorem draw_text_is_self_contained (layer : Layer) (c : Context2D) :
  props (drawText layer c) = props c /\
  lineDash (drawText layer c) = lineDash c /\
  saved (drawText layer c) = saved c /\
  exists es : list Painted,
    log (drawText layer c) = log c ++ es /\
    Forall
      (fun e =>
         phase e = marker c /\
         dash e = lineDash c /\
         style e !! "textAlign" = Some (VStr "center") /\
         style e !! "textBaseline" = Some (VStr "middle"))
      es.
Proof.
  destruct (drawText_restores layer c) as (Hp & Hd & Hs & _).
  destruct (drawText_style layer c) as (es & Hlog & Hes).
  destruct (drawText_dash layer c) as (es' & Hlog' & Hes').
  rewrite Hlog in Hlog'. apply app_inv_head in Hlog'. subst es'.
  split; [exact Hp|]. split; [exact Hd|]. split; [exact Hs|].
  exists es. split; [exact Hlog|].
  rewrite Forall_forall in Hes, Hes'. apply Forall_forall. intros e He.
  destruct (Hes e He) as (H0 & _ & H2 & H3 & _).
  destruct (Hes' e He) as (_ & Hdash).
  split; [exact H0|]. split; [exact Hdash|]. split; [exact H2 | exact H3].
Qed.

Lemma plain_paintLayer (s : AppState) (layer : Layer) :
  plain (paintLayer s layer).
Proof.
  unfold paintLayer. destruct (type_is layer "text").
  - intros c Hm.
    destruct (drawText_restores layer c) as (_ & Hd & _ & Hm').
    destruct (drawText_dash layer c) as (es & Hlog & Hes).
    split; [exact Hd|]. split; [rewrite Hm'; exact Hm|].
    exists es. split; [exact Hlog|].
    eapply Forall_impl; [exact Hes|]. intros e [Hp Hd'].
    split; [rewrite Hp; exact Hm | exact Hd'].
  - destruct (type_is layer "image"); [|apply plain_skip].
    destruct (imageObjects s !! toStr (layer !! "src"));
      [apply plain_paint | apply plain_skip].
Qed.

Lemma plain_layers (s : AppState) (ls : list Layer) (i : nat) :
  plain
    (forEach_from (fun layer i => enter (PLayer i) ;> paintLayer s layer) i ls).
Proof.
  revert i. induction ls as [|layer ls IH]; intros i; simpl.
  - apply plain_skip.
  - apply plain_seq; [|apply IH].
    apply plain_seq; [apply plain_enter; discriminate|].
    apply plain_paintLayer.
Qed.

Lemma outlined_after (final : list Q -> list Q) (op rest : CtxOp) :
  plain op -> outlined final rest -> outlined final (op ;> rest).
Proof.
  intros H1 H2 c Hm. unfold andThen.
  destruct (H1 c Hm) as (Hd1 & Hm1 & es1 & Hl1 & He1).
  destruct (H2 (op c) Hm1) as (Hd2 & es2 & Hl2 & He2).
  split; [congruence|].
  exists (es1 ++ es2). split; [rewrite Hl2, Hl1, app_assoc; reflexivity|].
  apply Forall_app. split.
  - eapply Forall_impl; [exact He1|]. intros e He. right. exact He.
  - rewrite <- Hd1. exact He2.
Qed.

Lemma outlined_selection (s : AppState) :
  outlined
    (fun d => match selectedLayer s with Some _ => [] | None => d end)
    (enter PSelection ;>
     match selectedLayer s with
     | Some layer => drawSelection layer
     | None => skip
     end).
Proof.
  intros c _. unfold andThen.
  destruct (selectedLayer s) as [layer|].
  - unfold drawSelection, andThen.
    destruct (type_is layer "text"); unfold andThen;
      (split; [reflexivity|]); (eexists; split; [reflexivity|]);
      (constructor; [|constructor]); left; split; reflexivity.
  - split; [reflexivity|]. exists []. rewrite app_nil_r.
    split; [reflexivity | constructor].
Qed.

Ltac plainly :=
  repeat first
    [ apply plain_seq
    | apply plain_enter; discriminate
    | apply plain_paint
    | apply plain_skip
    | apply plain_assign ].

(** X19.  Only the outline of the selected layer is dashed: every other call
    of the effect is made with the dash pattern the context had before
    the effect ran, whatever was selected in earlier renders, and the
    effect leaves the pattern as it was, or empty after an outline. *)
Theorem only_the_outline_is_dashed (s : AppState) (today : JSDate)
  (c : Context2D) :
  lineDash (render s today c)
  = match selectedLayer s with Some _ => [] | None => lineDash c end /\
  forall e : Painted,
    e ∈ painted s today c ->
    (phase e = PSelection /\ dash e = [6; 3]%Q)
    \/ (phase e <> PSelection /\ dash e = lineDash c).
Proof.
  assert (outlined
            (fun d => match selectedLayer s with Some _ => [] | None => d end)
            (render s today)) as Hrender.
  { unfold render. cbv zeta.
    apply outlined_after; [plainly|].
    apply outlined_after; [plainly|].
    apply outlined_after; [plainly|].
    apply outlined_after; [destruct (resolvedBackground s); plainly|].
    apply outlined_after; [plainly|].
    apply outlined_after.
    { destruct (BorderOptions.enabled (borderOptions s)
                && (Some (BorderOptions.width (borderOptions s))
                    >? JSNum.of_Z 0)%js); plainly. }
    apply outlined_after; [plainly|].
    apply outlined_after.
    { destruct (DateOptions.enabled (dateOptions s)); plainly. }
    apply outlined_after; [apply plain_layers|].
    apply outlined_selection. }
  assert (render s today c = render s today (enter PClear c)) as Hsame
    by reflexivity.
  destruct (Hrender (enter PClear c)) as (Hd & es & Hlog & Hes);
    [discriminate|].
  rewrite <- Hsame in Hd, Hlog. split; [exact Hd|].
  unfold painted. change (log (enter PClear c)) with (log c) in Hlog.
  rewrite Hlog, drop_app_length.
  intros e He. rewrite Forall_forall in Hes. exact (Hes e He).
Qed.


(** *** The template store, further *)

Lemma kept_names (name : string) (ts : list Template.t) :
  Forall (fun t => Template.name t <> name)
    (List.filter (fun t => negb (String.eqb (Template.name t) name)) ts).
Proof.
  apply Forall_forall. intros t Ht. apply kept_elem in Ht. exact (proj2 Ht).
Qed.

Lemma kept_all (name : string) (ts : list Template.t) :
  Forall (fun t => Template.name t <> name) ts ->
  List.filter (fun t => negb (String.eqb (Template.name t) name)) ts = ts.
Proof.
  induction 1 as [|t ts Ht _ IH]; [reflexivity|]. simpl.
  apply String.eqb_neq in Ht. rewrite Ht. simpl. rewrite IH. reflexivity.
Qed.

(** X20.  Saving is cancelled by no answer and by an empty name: nothing
    changes, in the component or in storage.  Any other name appends the
    live composition to the list, also when the list has a template of
    that name already; the composition itself stays as it is, storage
    holds the new list, and no other storage key is written. *)
Theorem save_template_appends (answer : option string) (s : AppState)
  (w : World) :
  let after := dispatch (saveTemplate answer) (s, w) in
  (answer = None \/ answer = Some "" -> after = (s, w)) /\
  (forall name : string,
      answer = Some name -> name <> "" ->
      templates after.1 = templates s ++ [snapshot name s] /\
      scene after.1 = scene s /\
      selectedLayerIndex after.1 = selectedLayerIndex s /\
      imageObjects after.1 = imageObjects s /\
      dragInfo after.2 = dragInfo w /\
      localStorage after.2 !! storageKey
      = Some (JSON_stringify (templates after.1)) /\
      forall k : string,
        k <> storageKey -> localStorage after.2 !! k = localStorage w !! k).
Proof using JSON_stringify.
  cbv zeta. split.
  - intros [-> | ->]; destruct w; reflexivity.
  - intros name -> Hname. rewrite (saveTemplate_run name s w Hname).
    cbn [fst snd reduce templates selectedLayerIndex imageObjects dragInfo
           localStorage].
    split; [reflexivity|]. split; [reflexivity|]. split; [reflexivity|].
    split; [reflexivity|]. split; [reflexivity|].
    split; [apply lookup_insert_eq|].
    intros k Hk. apply lookup_insert_ne. congruence.
Qed.

(** X21.  Applying a template overwrites everything an earlier application
    set: of two applied in a row only the second shows.  Applying one
    leaves the template list, storage, the image cache and the background
    image as they are, so a decoded background image goes on hiding the
    template's background colour. *)
Theorem load_template_last_wins (t t' : Template.t) (s : AppState)
  (w : World) :
  let after := dispatch (loadTemplate t) (s, w) in
  dispatch (loadTemplate t') after = dispatch (loadTemplate t') (s, w) /\
  dispatch (loadTemplate t) after = after /\
  after.2 = w /\
  templates after.1 = templates s /\
  imageObjects after.1 = imageObjects s /\
  backgroundImage after.1 = backgroundImage s /\
  resolvedBackground after.1 = resolvedBackground s.
Proof.
  cbv zeta. rewrite !loadTemplate_run. cbn [fst snd]. repeat split.
Qed.

(** X22.  Deleting a name twice is deleting it once, and deleting a name no
    template has keeps the list. *)
Theorem delete_template_idempotent (name : string) (s : AppState)
  (w : World) :
  let after := dispatch (deleteTemplate name) (s, w) in
  dispatch (deleteTemplate name) after = after /\
  (Forall (fun t => Template.name t <> name) (templates s) ->
   templates after.1 = templates s).
Proof using JSON_stringify.
  cbv zeta. rewrite !deleteTemplate_run. cbv zeta.
  cbn [fst snd reduce templates dragInfo localStorage].
  split.
  - rewrite (kept_all name _ (kept_names name (templates s))).
    rewrite insert_insert_eq. reflexivity.
  - intros Hall. apply kept_all, Hall.
Qed.

(** X23.  Storage is written by saving and deleting a template only, and under
    the one key; the drag record is written by the pointer handlers
    only. *)
Theorem storage_is_written_by_template_handlers (e : Event)
  (sw : AppState * World) :
  (forall k : string,
      k <> storageKey ->
      localStorage (step e sw).2 !! k = localStorage sw.2 !! k) /\
  match e with
  | SaveTemplate _ | DeleteTemplate _ => dragInfo (step e sw).2 = dragInfo sw.2
  | PointerDown _ | PointerMove _ | PointerUp =>
      localStorage (step e sw).2 = localStorage sw.2
  | _ => (step e sw).2 = sw.2
  end.
Proof using JSON_stringify.
  destruct sw as [s [d items]].
  destruct e; cbn [step fst snd]; try (split; reflexivity).
  - unfold dispatch, handleMouseDown. cbn [fst snd].
    destruct (negb _); split; reflexivity.
  - unfold dispatch, handleMouseMove, handleLayerPropChange. cbn [fst snd].
    cbn [world dragInfo].
    destruct (negb (isDragging d) || is_null (targetIndex d));
      [split; reflexivity|].
    destruct (selectedLayerIndex s); split; reflexivity.
  - unfold dispatch, handleLayerPropChange. cbn [fst snd].
    destruct (selectedLayerIndex s); split; reflexivity.
  - unfold dispatch, deleteSelectedLayer. cbn [fst snd].
    destruct (selectedLayerIndex s); split; reflexivity.
  - unfold dispatch, saveTemplate. cbn [fst snd].
    destruct answer as [name|]; [|split; reflexivity].
    destruct (String.eqb name ""); [split; reflexivity|].
    split; [|reflexivity].
    intros k Hk. apply lookup_insert_ne. congruence.
  - split; [|reflexivity].
    intros k Hk. apply lookup_insert_ne. congruence.
  - unfold dispatch, onBackgroundImageChange. cbn [fst snd].
    destruct file; split; reflexivity.
Qed.

(** *** The pointer position *)



(** *** The controls of the canvas panel *)

(** X25.  The border controls update the options the component has when the
    call is processed, not those of the render that made the call: of
    three changes queued in one batch, in whatever order, none is lost,
    and nothing but the border options changes. *)
Theorem border_controls_compose (checked : bool) (value : Q)
  (color : string) (s : AppState) :
  let s' :=
    commit
      (onBorderEnabledChange checked ++ onBorderWidthChange value
       ++ onBorderColorChange color) s in
  borderOptions s' = BorderOptions.mk color value checked /\
  s' = commit
         (onBorderColorChange color ++ onBorderWidthChange value
          ++ onBorderEnabledChange checked) s /\
  s' = commit
         (onBorderWidthChange value ++ onBorderEnabledChange checked
          ++ onBorderColorChange color) s /\
  s' = reduce s (SetBorderOptions (BorderOptions.mk color value checked)) /\
  BorderOptions.width
    (borderOptions (commit (onBorderEnabledChange checked) s))
  = BorderOptions.width (borderOptions s) /\
  BorderOptions.color
    (borderOptions (commit (onBorderEnabledChange checked) s))
  = BorderOptions.color (borderOptions s).
Proof. repeat split. Qed.

(** X26.  The layers are changed by dragging, by the layer panel, by adding a
    layer and by applying a template; no other event touches them, and
    the events that add a layer keep the ones there are. *)
Theorem layers_change_with_layer_events (e : Event)
  (sw : AppState * World) :
  match e with
  | PointerMove _ | LayerPropChange _ _ =>
      length (layers (step e sw).1) = length (layers sw.1)
  | DeleteLayer =>
      (length (layers (step e sw).1) <= length (layers sw.1))%nat
  | AddText | ImageLayerLoaded _ _ _ _ =>
      exists layer : Layer, layers (step e sw).1 = layers sw.1 ++ [layer]
  | ApplyTemplate template => layers (step e sw).1 = Template.layers template
  | _ => layers (step e sw).1 = layers sw.1
  end.
Proof.
  destruct sw as [s w].
  destruct e; cbn [step fst snd]; try reflexivity.
  - unfold dispatch, handleMouseDown. cbn [fst snd].
    destruct (negb _); reflexivity.
  - apply handleMouseMove_shape.
  - destruct (selectedLayerIndex s) as [i|] eqn:Hsel.
    + rewrite (handleLayerPropChange_layers prop value s w i Hsel).
      apply map_from_length.
    + rewrite (handleLayerPropChange_none prop value s w Hsel). reflexivity.
  - unfold dispatch, deleteSelectedLayer. cbn [fst snd].
    destruct (selectedLayerIndex s) as [i|]; [|reflexivity].
    cbn [pending enqueue andThen fold_left reduce layers].
    unfold JSArray.filter. rewrite filter_from_delete.
    destruct (i <? 0)%nat; simpl; [lia|].
    apply sublist_length, sublist_delete.
  - unfold addLayer_text. rewrite commit_append. eexists. reflexivity.
  - unfold addLayer_image_onload. rewrite commit_append. eexists.
    reflexivity.
  - unfold dispatch, saveTemplate. cbn [fst snd].
    destruct answer as [name|]; [|reflexivity].
    destruct (String.eqb name ""); reflexivity.
  - unfold dispatch, onBackgroundImageChange. cbn [fst snd].
    destruct file; reflexivity.
Qed.


End Component.

(** ** The reference platform meets the JSON guarantees *)

Lemma read_write_pos (p : positive) : Reference.read_pos (Reference.write_pos p) = Some p.
Proof. induction p as [p IH|p IH|]; simpl; rewrite ?IH; reflexivity. Qed.

Lemma write_pos_not_brackets (p : positive) :
  String.eqb (Reference.write_pos p) "[]" = false.
Proof. destruct p; reflexivity. Qed.

Lemma codec_roundtrip (ts : list Template.t) :
  Reference.parse (Reference.stringify ts) = Some (JSON_template <$> ts).
Proof.
  unfold Reference.parse, Reference.stringify.
  rewrite write_pos_not_brackets, read_write_pos. simpl.
  apply decode_encode.
Qed.

Lemma codec_brackets : Reference.parse "[]" = Some [].
Proof. reflexivity. Qed.

Lemma codec_empty : Reference.parse "" = None.
Proof. reflexivity. Qed.

(** ** The scenarios of the specification, run on the code *)

Lemma initialLayer_finite : finite_layers [initialLayer].
Proof.
  constructor; [|constructor].
  refine (bool_decide_unpack _ _). vm_compute. exact I.
Qed.

(** C4 at the specification's scenario.  A layer centred at (100,100) is
    grabbed at (110,110), which records the offset (10,10); the pointer
    then moves to (300,150).  The committed layer is centred at
    (100,140): the update of y, computed from the layers of the last
    render, replaces the update of x queued just before it. *)
Theorem drag_scenario_center :
  let s0 := Sample.withLayers [Sample.layerAt 100 100] None None in
  let down :=
    dispatch
      (handleMouseDown Reference.measureText Reference.numberToString
         (Sample.pos 110 110))
      (s0, Sample.world ∅) in
  let moved := dispatch (handleMouseMove (Sample.pos 300 150)) down in
  selectedLayerIndex down.1 = Some 0%nat /\
  dragInfo down.2
  = mkDragInfo true (Some 0%nat) (JSNum.of_Z 10) (JSNum.of_Z 10) /\
  layerNum moved.1 0 "x" = JSNum.of_Z 100 /\
  layerNum moved.1 0 "y" = JSNum.of_Z 140.
Proof. vm_compute. repeat split; reflexivity. Qed.

(** C5 as stated fails: with the first layer, a text layer, selected,
    [handleLayerPropChange "type" "image"] leaves a layer tagged as an
    image. *)
Lemma prop_change_retags_layer :
  let s' :=
    (dispatch (handleLayerPropChange "type" (VStr "image"))
       (initialState, Sample.world ∅)).1 in
  selectedLayerIndex initialState = Some 0%nat /\
  (exists layer : Layer,
      layers initialState !! 0%nat = Some layer /\
      type_is layer "text" = true) /\
  (exists layer' : Layer,
      layers s' !! 0%nat = Some layer' /\
      type_is layer' "text" = false /\ type_is layer' "image" = true).
Proof.
  cbv zeta. split; [reflexivity|]. split.
  - exists initialLayer. split; [reflexivity | vm_compute; reflexivity].
  - exists (<["type" := VStr "image"]> initialLayer).
    split; [reflexivity | split; vm_compute; reflexivity].
Qed.

(** C1 as stated fails: a state with a background image is saved; a new
    session loads the stored list and applies the template; the live
    scene has no background image, so it is not the saved scene. *)
Lemma round_trip_loses_background_image :
  let s :=
    Sample.withLayers [initialLayer] (Some 0%nat) (Some Sample.picture) in
  let stored :=
    (dispatch (saveTemplate Reference.stringify (Some "A"))
       (s, Sample.world ∅)).2 in
  exists template : Template.t,
    last (loadAll Reference.parse stored) = Some template /\
    scene (dispatch (loadTemplate template) (initialState, stored)).1
    <> scene s.
Proof.
  cbv zeta.
  exists
    (JSON_template
       (snapshot "A"
          (Sample.withLayers [initialLayer] (Some 0%nat)
             (Some Sample.picture)))).
  split.
  - apply (saved_template_loaded Reference.stringify Reference.parse codec_roundtrip
             codec_empty).
    discriminate.
  - rewrite loadTemplate_run. unfold scene. simpl. intros H.
    apply (f_equal (fun sc => sc.1.1.1.2)) in H. discriminate H.
Qed.

(** ** The theorems at concrete inputs *)


Lemma layer_prop_change_witness :
  let s' :=
    (dispatch (handleLayerPropChange "fontSize" (VNum (JSNum.of_Z 48)))
       (initialState, Sample.world ∅)).1 in
  layers initialState !! 0%nat = Some initialLayer /\
  "fontSize" <> "type" /\
  exists layer' : Layer,
    layers s' !! 0%nat = Some layer' /\
    layer' !! "fontSize" = Some (VNum (JSNum.of_Z 48)) /\
    (forall k : string, k <> "fontSize" -> layer' !! k = initialLayer !! k) /\
    ("fontSize" <> "type" ->
     forall t : string, type_is layer' t = type_is initialLayer t).
Proof.
  cbv zeta. split; [reflexivity|]. split; [discriminate|].
  apply (layer_prop_change "fontSize" (VNum (JSNum.of_Z 48)) initialState
           (Sample.world ∅)).
  reflexivity.
Defined.




Lemma load_all_or_empty_witness :
  let w :=
    mkWorld initialDragInfo
      {[storageKey := Reference.stringify [snapshot "A" initialState]]} in
  localStorage w !! storageKey
  = Some (Reference.stringify [snapshot "A" initialState]) /\
  Forall (fun t => finite_layers (Template.layers t))
    [snapshot "A" initialState] /\
  loadAll Reference.parse w = [snapshot "A" initialState].
Proof.
  cbv zeta. split; [reflexivity|].
  assert (Forall (fun t => finite_layers (Template.layers t))
            [snapshot "A" initialState]) as Hfin.
  { constructor; [exact initialLayer_finite | constructor]. }
  split; [exact Hfin|].
  apply (load_all_or_empty Reference.stringify Reference.parse codec_roundtrip
           codec_brackets codec_empty);
    [reflexivity | exact Hfin].
Defined.


Lemma template_round_trip_witness :
  let stored :=
    (dispatch (saveTemplate Reference.stringify (Some "A"))
       (initialState, Sample.world ∅)).2 in
  "A" <> "" /\
  finite_layers (layers initialState) /\
  exists template : Template.t,
    last (loadAll Reference.parse stored) = Some template /\
    Template.name template = "A" /\
    let s' := (dispatch (loadTemplate template) (Sample.decoded, stored)).1 in
    canvasSize s' = canvasSize initialState /\
    backgroundColor s' = backgroundColor initialState /\
    borderOptions s' = borderOptions initialState /\
    dateOptions s' = dateOptions initialState /\
    layers s' = layers initialState /\
    selectedLayerIndex s' = None /\
    backgroundImage s' = backgroundImage Sample.decoded.
Proof.
  cbv zeta. split; [discriminate|]. split; [exact initialLayer_finite|].
  apply (template_round_trip Reference.stringify Reference.parse codec_roundtrip
           codec_empty "A" initialState Sample.decoded (Sample.world ∅));
    [discriminate | exact initialLayer_finite].
Defined.
(** ** The further properties at concrete inputs *)

Lemma pointer_move_idle_witness :
  isDragging (dragInfo (Sample.world ∅)) = false /\
  dispatch (handleMouseMove (Sample.pos 300 150))
    (initialState, Sample.world ∅)
  = (initialState, Sample.world ∅).
Proof.
  split; [reflexivity|].
  exact (proj1 (pointer_move_idle (Sample.pos 300 150) initialState
                  (Sample.world ∅)) eq_refl).
Defined.



Lemma prop_changes_compose_witness :
  let one :=
    dispatch (handleLayerPropChange "x" (VNum (JSNum.of_Z 300)))
      (initialState, Sample.world ∅) in
  let both := dispatch (handleLayerPropChange "y" (VNum (JSNum.of_Z 150))) one in
  selectedLayerIndex initialState = Some 0%nat /\
  layers initialState !! 0%nat = Some initialLayer /\
  "x" <> "y" /\
  (exists layer' : Layer,
      layers both.1 !! 0%nat = Some layer' /\
      layer' !! "x" = Some (VNum (JSNum.of_Z 300)) /\
      layer' !! "y" = Some (VNum (JSNum.of_Z 150)) /\
      forall k : string, k <> "x" -> k <> "y" -> layer' !! k = initialLayer !! k) /\
  both
  = dispatch (handleLayerPropChange "x" (VNum (JSNum.of_Z 300)))
      (dispatch (handleLayerPropChange "y" (VNum (JSNum.of_Z 150)))
         (initialState, Sample.world ∅)).
Proof.
  cbv zeta. split; [reflexivity|]. split; [reflexivity|].
  assert ("x" <> "y") as Hne by discriminate.
  split; [exact Hne|].
  exact (prop_changes_compose "x" "y" (VNum (JSNum.of_Z 300))
           (VNum (JSNum.of_Z 150)) initialState (Sample.world ∅) 0
           initialLayer eq_refl eq_refl Hne).
Defined.

Lemma added_text_layer_is_grabbed_witness :
  let s' := commit (addLayer_text initialState) initialState in
  Reference.measureText
    (fontOf Reference.numberToString (newTextLayer (canvasSize initialState)))
    "새 텍스트"
  = Some (inject_Z (40 * Z.of_nat (String.length "새 텍스트"))) /\
  (0 <= inject_Z (40 * Z.of_nat (String.length "새 텍스트")))%Q /\
  selectedLayerIndex
    (dispatch
       (handleMouseDown Reference.measureText Reference.numberToString
          (mkPos (Some (1280 / 2)%Q) (Some (720 / 2)%Q)))
       (s', Sample.world ∅)).1
  = Some 1%nat.
Proof.
  cbv zeta. split; [reflexivity|].
  assert (0 <= inject_Z (40 * Z.of_nat (String.length "새 텍스트")))%Q
    as Hwide by (vm_compute; discriminate).
  split; [exact Hwide|].
  exact (added_text_layer_is_grabbed Reference.measureText
           Reference.numberToString initialState (Sample.world ∅) _
           eq_refl Hwide).
Defined.




Lemma cache_only_grows_witness :
  let sw :=
    step Reference.measureText Reference.numberToString Reference.stringify
      (ImageDecoded Sample.picture)
      (dispatch (loadTemplatesEffect Reference.parse)
         (initialState, mkWorld initialDragInfo ∅)) in
  reachable Reference.measureText Reference.numberToString Reference.stringify
    Reference.parse sw /\
  cache_keyed sw.1 /\
  imageObjects sw.1 !! Sample.picture = Some (mkImage Sample.picture) /\
  imageObjects
    (step Reference.measureText Reference.numberToString Reference.stringify
       (ApplyTemplate (snapshot "A" initialState)) sw).1
  !! Sample.picture
  = Some (mkImage Sample.picture).
Proof.
  cbv zeta.
  assert (reachable Reference.measureText Reference.numberToString
            Reference.stringify Reference.parse
            (step Reference.measureText Reference.numberToString
               Reference.stringify (ImageDecoded Sample.picture)
               (dispatch (loadTemplatesEffect Reference.parse)
                  (initialState, mkWorld initialDragInfo ∅)))) as Hreach
    by apply reachable_step, reachable_mount.
  assert (imageObjects
            (step Reference.measureText Reference.numberToString
               Reference.stringify (ImageDecoded Sample.picture)
               (dispatch (loadTemplatesEffect Reference.parse)
                  (initialState, mkWorld initialDragInfo ∅))).1
          !! Sample.picture = Some (mkImage Sample.picture)) as Hcached
    by (vm_compute; reflexivity).
  split; [exact Hreach|].
  destruct (cache_only_grows Reference.measureText Reference.numberToString
              Reference.stringify Reference.parse _ Hreach) as [Hkeyed Hgrow].
  split; [exact Hkeyed|]. split; [exact Hcached|].
  exact (Hgrow (ApplyTemplate (snapshot "A" initialState)) _ _ Hcached).
Defined.

Lemma selection_never_dangles_witness :
  let sw :=
    step Reference.measureText Reference.numberToString Reference.stringify
      DeleteLayer
      (dispatch (loadTemplatesEffect Reference.parse)
         (initialState, mkWorld initialDragInfo ∅)) in
  reachable Reference.measureText Reference.numberToString Reference.stringify
    Reference.parse sw /\
  selection_in_range sw.1.
Proof.
  cbv zeta.
  assert (reachable Reference.measureText Reference.numberToString
            Reference.stringify Reference.parse
            (step Reference.measureText Reference.numberToString
               Reference.stringify DeleteLayer
               (dispatch (loadTemplatesEffect Reference.parse)
                  (initialState, mkWorld initialDragInfo ∅)))) as Hreach
    by apply reachable_step, reachable_mount.
  split; [exact Hreach|].
  exact (proj1 (selection_never_dangles Reference.measureText
                  Reference.numberToString Reference.stringify
                  Reference.parse _ Hreach)).
Defined.

Lemma shadows_stay_with_their_layer_witness :
  exists e : Painted,
    e ∈ painted Reference.measureText Reference.numberToString initialState
          Sample.today Sample.blankContext /\
    phase e = PSelection /\
    same_shadow (style e) (props Sample.blankContext).
Proof.
  destruct (painted Reference.measureText Reference.numberToString
              initialState Sample.today Sample.blankContext !! 7%nat)
    as [e|] eqn:He; [|vm_compute in He; discriminate He].
  assert (phase e = PSelection) as Hphase.
  { pose proof He as He'. vm_compute in He'. injection He' as <-.
    reflexivity. }
  apply list_elem_of_lookup_2 in He.
  exists e. split; [exact He|]. split; [exact Hphase|].
  destruct (proj2 (shadows_stay_with_their_layer Reference.measureText
                     Reference.numberToString initialState Sample.today
                     Sample.blankContext) e He)
    as [(j & layer & Hj & _) | Hsame]; [congruence | exact Hsame].
Defined.

Lemma only_the_outline_is_dashed_witness :
  lineDash
    (render Reference.measureText Reference.numberToString initialState
       Sample.today Sample.blankContext) = [] /\
  exists e : Painted,
    e ∈ painted Reference.measureText Reference.numberToString initialState
          Sample.today Sample.blankContext /\
    phase e = PBorder /\ dash e = lineDash Sample.blankContext.
Proof.
  split.
  - exact (proj1 (only_the_outline_is_dashed Reference.measureText
                    Reference.numberToString initialState Sample.today
                    Sample.blankContext)).
  - destruct (painted Reference.measureText Reference.numberToString
                initialState Sample.today Sample.blankContext !! 2%nat)
      as [e|] eqn:He; [|vm_compute in He; discriminate He].
    assert (phase e = PBorder) as Hphase.
    { pose proof He as He'. vm_compute in He'. injection He' as <-.
      reflexivity. }
    apply list_elem_of_lookup_2 in He.
    exists e. split; [exact He|]. split; [exact Hphase|].
    destruct (proj2 (only_the_outline_is_dashed Reference.measureText
                       Reference.numberToString initialState Sample.today
                       Sample.blankContext) e He)
      as [[Hsel _] | [_ Hdash]]; [congruence | exact Hdash].
Defined.

Lemma save_template_appends_witness :
  let after :=
    dispatch (saveTemplate Reference.stringify (Some "A"))
      (initialState, Sample.world ∅) in
  "A" <> "" /\
  templates after.1 = templates initialState ++ [snapshot "A" initialState] /\
  localStorage after.2 !! storageKey
  = Some (Reference.stringify (templates after.1)) /\
  dispatch (saveTemplate Reference.stringify (Some ""))
    (initialState, Sample.world ∅)
  = (initialState, Sample.world ∅).
Proof.
  cbv zeta.
  assert ("A" <> "") as Hname by discriminate.
  split; [exact Hname|].
  pose proof (proj2 (save_template_appends Reference.stringify (Some "A")
                       initialState (Sample.world ∅)) "A" eq_refl Hname)
    as (H1 & _ & _ & _ & _ & H6 & _).
  split; [exact H1|]. split; [exact H6|].
  exact (proj1 (save_template_appends Reference.stringify (Some "")
                  initialState (Sample.world ∅)) (or_intror eq_refl)).
Defined.

Lemma delete_template_idempotent_witness :
  let saved :=
    dispatch (saveTemplate Reference.stringify (Some "A"))
      (initialState, Sample.world ∅) in
  Forall (fun t => Template.name t <> "B") (templates saved.1) /\
  templates (dispatch (deleteTemplate Reference.stringify "B") saved).1
  = templates saved.1.
Proof.
  cbv zeta.
  assert (Forall (fun t => Template.name t <> "B")
            (templates
               (dispatch (saveTemplate Reference.stringify (Some "A"))
                  (initialState, Sample.world ∅)).1)) as Hall.
  { constructor; [discriminate | constructor]. }
  split; [exact Hall|].
  exact (proj2 (delete_template_idempotent Reference.stringify "B"
                  (dispatch (saveTemplate Reference.stringify (Some "A"))
                     (initialState, Sample.world ∅)).1
                  (dispatch (saveTemplate Reference.stringify (Some "A"))
                     (initialState, Sample.world ∅)).2) Hall).
Defined.

